(** * Cryptocurrency-Market-Analysis: the refresh loop and its report generator

    A shallow embedding of [crypto_tracker.py] and [generate_report.py].
    Python values are modelled as the interpreter has them:
    - [float] is IEEE binary64, Rocq's primitive [float];
    - [str] is [string] (bytes; only the ASCII behaviour of [upper],
      digits and formatting is modelled);
    - [datetime] keeps its civil fields and is subtracted through the
      proleptic Gregorian ordinal, a [timedelta] is a number of microseconds;
    - [None] is [option]'s [None]; an exception is an explicit result.
    The files on disk ([crypto_live_data.xlsx], [reports/latest_report.pdf],
    [reports/archive/]) are an explicit state, and what the outside world
    answers in one call (the HTTP response, whether a write succeeds, the
    clock) is an explicit argument. *)

From Stdlib Require Import ZArith List String Ascii Bool Lia.
From Stdlib Require Import DecimalString DecimalPos DecimalN.
From Stdlib Require Import PrimFloat FloatOps SpecFloat FloatAxioms.
From stdpp Require Import list.
Import ListNotations.

Local Open Scope string_scope.

(** ** Python strings *)

Module PyStr.

Fixpoint chars (s : string) : list ascii :=
  match s with
  | EmptyString => []
  | String c r => c :: chars r
  end.

Fixpoint of_chars (l : list ascii) : string :=
  match l with
  | [] => EmptyString
  | c :: r => String c (of_chars r)
  end.

(** [str(n)] for a non-negative integer. *)
Definition str_nat (n : Z) : string :=
  NilZero.string_of_uint (N.to_uint (Z.to_N n)).

(** [f"{n:0{w}d}"] for a non-negative integer: zero-padded to width [w]. *)
Definition zfill (w : nat) (s : string) : string :=
  of_chars (repeat "0"%char (w - String.length s)) ++ s.

(** Thousands separators of the format specifier [","]: the digits are
    grouped in threes from the right. *)
Fixpoint group3_rev (l : list ascii) : list ascii :=
  match l with
  | a :: b :: c :: ((_ :: _) as r) => a :: b :: c :: ","%char :: group3_rev r
  | _ => l
  end.

Definition group3 (s : string) : string :=
  of_chars (rev (group3_rev (rev (chars s)))).

(** [s.replace(",", "")] *)
Definition strip_commas (s : string) : string :=
  of_chars (List.filter (fun c => negb (Ascii.eqb c ","%char)) (chars s)).

(** [c.isdigit()] on ASCII, and a text of exactly two digits. *)
Definition is_digit (c : ascii) : bool :=
  ((48 <=? nat_of_ascii c) && (nat_of_ascii c <=? 57))%nat.

Definition two_digits (s : string) : bool :=
  match s with
  | String a (String b EmptyString) => is_digit a && is_digit b
  | _ => false
  end.

(** [s.isdigit()] on ASCII, for a text that is not empty. *)
Definition all_digits (s : string) : bool :=
  match s with
  | EmptyString => false
  | _ => forallb is_digit (chars s)
  end.

(** [c.islower()] on ASCII. *)
Definition is_lower (c : ascii) : bool :=
  ((97 <=? nat_of_ascii c) && (nat_of_ascii c <=? 122))%nat.

(** [s.split(sep)] for a one-character separator. *)
Fixpoint split_chars (sep : ascii) (l : list ascii) : list (list ascii) :=
  match l with
  | [] => [[]]
  | c :: r =>
      if Ascii.eqb c sep then [] :: split_chars sep r
      else match split_chars sep r with
           | h :: t => (c :: h) :: t
           | [] => [[c]]
           end
  end.

Definition split (sep : ascii) (s : string) : list string :=
  map of_chars (split_chars sep (chars s)).

(** [sep.join(parts)] *)
Fixpoint join (sep : string) (parts : list string) : string :=
  match parts with
  | [] => ""
  | [p] => p
  | p :: r => p ++ sep ++ join sep r
  end.

Definition startswith (s p : string) : bool := String.prefix p s.

Definition endswith (s p : string) : bool :=
  String.prefix (of_chars (rev (chars p))) (of_chars (rev (chars s))).

(** [s.upper()] on ASCII letters. *)
Definition upper_char (c : ascii) : ascii :=
  let n := nat_of_ascii c in
  if ((97 <=? n) && (n <=? 122))%nat then ascii_of_nat (n - 32) else c.

Definition upper (s : string) : string := of_chars (map upper_char (chars s)).

(** [s.isascii()]: every character is below 128. *)
Definition is_ascii (s : string) : bool :=
  forallb (fun c => (nat_of_ascii c <? 128)%nat) (chars s).

End PyStr.

(** ** Python floats and their fixed-point formatting *)

Module PyFloat.

Local Open Scope Z_scope.

(** [float(z)] for a Python int: the nearest binary64, ties to even. *)
Definition of_int (z : Z) : float :=
  SF2Prim (binary_normalize prec emax z 0 false).

(** The integer nearest to [n / d], ties to the even one ([d > 0], [n >= 0]). *)
Definition div_half_even (n d : Z) : Z :=
  let q := n / d in
  let r := n mod d in
  if 2 * r <? d then q
  else if d <? 2 * r then q + 1
  else if Z.even q then q else q + 1.

(** [round(|x| * 100)] for the finite non-zero float of mantissa [m] and
    exponent [e], computed on the exact binary value as [float.__format__]
    does (correctly rounded, ties to even). *)
Definition hundredths (m : positive) (e : Z) : Z :=
  if 0 <=? e then Z.pos m * 2 ^ e * 100
  else div_half_even (Z.pos m * 100) (2 ^ (- e)).

Definition sign_str (s : bool) : string := if s then "-" else "".

Definition int_part (h : Z) : string := PyStr.str_nat (h / 100).
Definition frac_part (h : Z) : string := PyStr.zfill 2 (PyStr.str_nat (h mod 100)).

(** [f"{x:.2f}"] *)
Definition format_2f (x : float) : string :=
  match Prim2SF x with
  | S754_nan => "nan"
  | S754_infinity s => sign_str s ++ "inf"
  | S754_zero s => sign_str s ++ "0.00"
  | S754_finite s m e =>
      let h := hundredths m e in
      sign_str s ++ int_part h ++ "." ++ frac_part h
  end.

(** [f"{x:,.2f}"] *)
Definition format_comma_2f (x : float) : string :=
  match Prim2SF x with
  | S754_nan => "nan"
  | S754_infinity s => sign_str s ++ "inf"
  | S754_zero s => sign_str s ++ "0.00"
  | S754_finite s m e =>
      let h := hundredths m e in
      sign_str s ++ PyStr.group3 (int_part h) ++ "." ++ frac_part h
  end.

End PyFloat.

(** ** Python's [datetime] and [timedelta] *)

Module PyTime.

Local Open Scope Z_scope.

(** A naive [datetime]: its civil fields, as the object stores them. *)
Record datetime := mk_datetime {
  year : Z; month : Z; day : Z;
  hour : Z; minute : Z; second : Z; microsecond : Z }.

(** A [timedelta], in microseconds. *)
Definition timedelta := Z.
Definition microseconds (n : Z) : timedelta := n.
Definition seconds (n : Z) : timedelta := n * 1000000.
Definition minutes (n : Z) : timedelta := seconds (n * 60).
Definition days (n : Z) : timedelta := seconds (n * 86400).

Definition is_leap (y : Z) : bool :=
  (y mod 4 =? 0) && (negb (y mod 100 =? 0) || (y mod 400 =? 0)).

Definition days_in_month (y m : Z) : Z :=
  if m =? 2 then (if is_leap y then 29 else 28)
  else if (m =? 4) || (m =? 6) || (m =? 9) || (m =? 11) then 30
  else 31.

(** [_days_before_year]: days before January 1st of year [y]. *)
Definition days_before_year (y : Z) : Z :=
  let p := y - 1 in p * 365 + p / 4 - p / 100 + p / 400.

(** [_days_before_month]: days in year [y] before the first of month [m]. *)
Definition days_before_month (y m : Z) : Z :=
  fold_right Z.add 0
    (map (days_in_month y) (map Z.of_nat (seq 1 (Z.to_nat (m - 1))))).

(** [date.toordinal()]: 0001-01-01 is day 1. *)
Definition toordinal (d : datetime) : Z :=
  days_before_year (year d) + days_before_month (year d) (month d) + day d.

(** The checks of the [datetime] constructor ([ValueError] otherwise). *)
Definition valid (d : datetime) : bool :=
  (1 <=? year d) && (year d <=? 9999) &&
  (1 <=? month d) && (month d <=? 12) &&
  (1 <=? day d) && (day d <=? days_in_month (year d) (month d)) &&
  (0 <=? hour d) && (hour d <=? 23) &&
  (0 <=? minute d) && (minute d <=? 59) &&
  (0 <=? second d) && (second d <=? 59) &&
  (0 <=? microsecond d) && (microsecond d <=? 999999).

(** Microseconds since 0001-01-01 00:00:00, minus one day. *)
Definition to_microseconds (d : datetime) : Z :=
  (((toordinal d * 24 + hour d) * 60 + minute d) * 60 + second d) * 1000000
  + microsecond d.

(** [a - b] on two naive datetimes. *)
Definition sub (a b : datetime) : timedelta :=
  to_microseconds a - to_microseconds b.

(** [strftime("%Y%m%d_%H%M%S")] (years of four digits, as the clock gives). *)
Definition strftime_Ymd_HMS (d : datetime) : string :=
  PyStr.zfill 4 (PyStr.str_nat (year d)) ++ PyStr.zfill 2 (PyStr.str_nat (month d))
  ++ PyStr.zfill 2 (PyStr.str_nat (day d)) ++ "_"
  ++ PyStr.zfill 2 (PyStr.str_nat (hour d)) ++ PyStr.zfill 2 (PyStr.str_nat (minute d))
  ++ PyStr.zfill 2 (PyStr.str_nat (second d)).

(** [strftime("%Y-%m-%d %H:%M:%S")] *)
Definition strftime_iso (d : datetime) : string :=
  PyStr.zfill 4 (PyStr.str_nat (year d)) ++ "-" ++ PyStr.zfill 2 (PyStr.str_nat (month d))
  ++ "-" ++ PyStr.zfill 2 (PyStr.str_nat (day d)) ++ " "
  ++ PyStr.zfill 2 (PyStr.str_nat (hour d)) ++ ":" ++ PyStr.zfill 2 (PyStr.str_nat (minute d))
  ++ ":" ++ PyStr.zfill 2 (PyStr.str_nat (second d)).

(** *** [datetime.strptime(s, "%Y%m%d_%H%M%S")]

    CPython turns the format into one regular expression,
    [(\d\d\d\d)(1[0-2]|0[1-9]|[1-9])(3[0-1]|[1-2]\d|0[1-9]|[1-9]| [1-9])_]
    [(2[0-3]|[0-1]\d|\d)([0-5]\d|\d)(6[0-1]|[0-5]\d|\d)], takes its first
    match at the start of the string (alternatives in order, backtracking),
    refuses a match that leaves characters over, and builds the datetime,
    whose constructor checks the fields. The digits read are the ASCII
    digits: this is [strptime] on ASCII text ([PyStr.is_ascii]); in a text
    with other characters CPython's [\d] also takes the decimal digits of
    other scripts, which are not read here. *)

(** A character class: the inclusive range of characters it accepts. *)
Definition cls : Type := ascii * ascii.
Definition in_cls (k : cls) (c : ascii) : bool :=
  (nat_of_ascii (fst k) <=? nat_of_ascii c)%nat && (nat_of_ascii c <=? nat_of_ascii (snd k))%nat.

Definition digit : cls := ("0"%char, "9"%char).
Definition rng (a b : ascii) : cls := (a, b).
Definition lit (a : ascii) : cls := (a, a).

(** One alternative, a sequence of classes, against the head of the input:
    the matched characters and the rest. *)
Fixpoint match_seq (ks : list cls) (l : list ascii) : option (list ascii * list ascii) :=
  match ks with
  | [] => Some ([], l)
  | k :: ks' =>
      match l with
      | c :: l' =>
          if in_cls k c then
            match match_seq ks' l' with
            | Some (m, r) => Some (c :: m, r)
            | None => None
            end
          else None
      | [] => None
      end
  end.

(** [int(text)] of a matched group: leading blanks skipped, decimal digits. *)
Definition int_of_group (m : list ascii) : Z :=
  fold_left (fun acc c =>
               if in_cls digit c then acc * 10 + (Z.of_nat (nat_of_ascii c) - 48) else acc)
            m 0.

(** All the ways one group matches, in the order of its alternatives. *)
Definition match_group (alts : list (list cls)) (l : list ascii) : list (Z * list ascii) :=
  flat_map (fun ks => match match_seq ks l with
                      | Some (m, r) => [(int_of_group m, r)]
                      | None => []
                      end) alts.

Definition re_Y : list (list cls) := [[digit; digit; digit; digit]].
Definition re_m : list (list cls) :=
  [[lit "1"; rng "0" "2"]; [lit "0"; rng "1" "9"]; [rng "1" "9"]].
Definition re_d : list (list cls) :=
  [[lit "3"; rng "0" "1"]; [rng "1" "2"; digit]; [lit "0"; rng "1" "9"];
   [rng "1" "9"]; [lit " "; rng "1" "9"]].
Definition re_sep : list (list cls) := [[lit "_"]].
Definition re_H : list (list cls) :=
  [[lit "2"; rng "0" "3"]; [rng "0" "1"; digit]; [digit]].
Definition re_M : list (list cls) := [[rng "0" "5"; digit]; [digit]].
Definition re_S : list (list cls) := [[lit "6"; rng "0" "1"]; [rng "0" "5"; digit]; [digit]].

(** Every match of the whole expression at the start of [l], first one
    first: the groups' values and what is left of the input. *)
Definition matches_Ymd_HMS (l : list ascii) : list (datetime * list ascii) :=
  flat_map (fun '(yy, l1) =>
  flat_map (fun '(mo, l2) =>
  flat_map (fun '(dd, l3) =>
  flat_map (fun '(_, l4) =>
  flat_map (fun '(hh, l5) =>
  flat_map (fun '(mi, l6) =>
  map (fun '(ss, l7) => (mk_datetime yy mo dd hh mi ss 0, l7))
      (match_group re_S l6))
      (match_group re_M l5))
      (match_group re_H l4))
      (match_group re_sep l3))
      (match_group re_d l2))
      (match_group re_m l1))
      (match_group re_Y l).

(** The characters [strftime] writes for a field of width [w] and value
    [v], and whether the expression [alts] of a field reads them back: first
    as [v], with nothing left over, no alternative being longer than they
    are. *)
Definition field_chars (w : nat) (v : Z) : list ascii :=
  PyStr.chars (PyStr.zfill w (PyStr.str_nat v)).

Definition reads_back (alts : list (list cls)) (w : nat) (v : Z) : bool :=
  match match_group alts (field_chars w v) with
  | (v', []) :: _ =>
      (v' =? v)
      && forallb (fun ks => (length ks <=? length (field_chars w v))%nat) alts
  | _ => false
  end.

(** [None] stands for the [ValueError]. *)
Definition strptime_Ymd_HMS (s : string) : option datetime :=
  match matches_Ymd_HMS (PyStr.chars s) with
  | (d, []) :: _ => if valid d then Some d else None
  | _ => None
  end.

End PyTime.

(** ** The market table and the files on disk *)

Module Frame.

(** A field of one record of the provider's JSON list: the key may be
    absent, hold [null], or hold a value. In a DataFrame the first reads as
    NaN and the second as [None]; both are missing values. *)
Inductive cell (A : Type) : Type :=
| Absent
| Null
| Val (a : A).
Arguments Absent {A}.
Arguments Null {A}.
Arguments Val {A} a.

Definition present {A} (c : cell A) : bool :=
  match c with Absent => false | _ => true end.

Definition cell_map {A B} (f : A -> B) (c : cell A) : cell B :=
  match c with Absent => Absent | Null => Null | Val a => Val (f a) end.

(** [str(x)] of a text cell. *)
Definition cell_str (c : cell string) : string :=
  match c with Absent => "nan" | Null => "None" | Val s => s end.

(** A numeric cell in a float64 column: a missing value is NaN. *)
Definition to_float (c : cell float) : float :=
  match c with Val x => x | _ => PrimFloat.nan end.

(** One record of [/coins/markets], the six keys the program reads. *)
Record coin := mk_coin {
  name : cell string;
  symbol : cell string;
  current_price : cell float;
  market_cap : cell float;
  total_volume : cell float;
  price_change_percentage_24h : cell float }.

(** One row of the transformed table, columns ['Name'], ['Symbol'],
    ['Price (USD)'], ['Market Cap (USD)'], ['24h Volume (USD)'] and
    ['24h Change (%)']. *)
Record row := mk_row {
  Name : cell string;
  Symbol : cell string;
  Price_USD : float;
  Market_Cap_USD : float;
  Volume_24h_USD : float;
  Change_24h_pct : float }.

Definition dataframe := list row.

(** [Series.fillna(0)] on one value. *)
Definition fillna0 (x : float) : float :=
  if PrimFloat.is_nan x then 0%float else x.

Definition notna (x : float) : bool := negb (PrimFloat.is_nan x).

(** [Series.sum()] and [Series.mean()]: missing values are skipped. The
    additions are taken in row order. *)
Definition col_sum (l : list float) : float :=
  fold_left PrimFloat.add (List.filter notna l) 0%float.

Definition col_mean (l : list float) : float :=
  (col_sum l / PyFloat.of_int (Z.of_nat (length (List.filter notna l))))%float.

(** [Series.max()] and [Series.min()]: NaN when no value is present. *)
Definition col_max (l : list float) : float :=
  fold_left (fun acc x => if PrimFloat.is_nan acc then x
                          else if PrimFloat.ltb acc x then x else acc)
            (List.filter notna l) PrimFloat.nan.

Definition col_min (l : list float) : float :=
  fold_left (fun acc x => if PrimFloat.is_nan acc then x
                          else if PrimFloat.ltb x acc then x else acc)
            (List.filter notna l) PrimFloat.nan.

(** [df.nlargest(1, col)] and [df.nsmallest(1, col)] with [keep='first']:
    the first row holding the extreme value, rows with a missing value last;
    no row when the table is empty. *)
Definition nlargest1 (key : row -> float) (df : dataframe) : option row :=
  fold_left (fun acc r =>
               match acc with
               | None => Some r
               | Some b =>
                   if (PrimFloat.is_nan (key b) && notna (key r))
                      || PrimFloat.ltb (key b) (key r)
                   then Some r else Some b
               end) df None.

Definition nsmallest1 (key : row -> float) (df : dataframe) : option row :=
  fold_left (fun acc r =>
               match acc with
               | None => Some r
               | Some b =>
                   if (PrimFloat.is_nan (key b) && notna (key r))
                      || PrimFloat.ltb (key r) (key b)
                   then Some r else Some b
               end) df None.

(** The workbook [crypto_live_data.xlsx]: the sheets 'Live Data' and
    'Analysis' (the latter as its Metric/Value rows, of which [update_excel]
    writes five; no row stands for a workbook without that sheet). *)
Record workbook := mk_workbook {
  live_data : dataframe;
  analysis_sheet : list (string * string) }.

(** A rendered report, by what [create_pdf_report] puts in it: the
    'Report Generated' line, the market overview and the top-5 table. *)
Record pdf := mk_pdf {
  generated : string;
  market_data : list (list string);
  top_5_data : list (list string) }.

(** The files the two programs share. [archive_dir] lists [reports/archive]
    in the order the directory is scanned. *)
Record files := mk_files {
  excel_file : option workbook;
  latest_report : option pdf;
  archive_dir : list (string * pdf) }.

End Frame.

(** ** generate_report.py *)

Module Report.

Import Frame.

(** [format_currency(self, value)]: [value >= 1e9] is [1e9 <= value], false
    for a NaN. *)
Definition format_currency (value : float) : string :=
  if PrimFloat.leb 1e9 value then
    "$" ++ PyFloat.format_2f (value / 1e9) ++ "B"
  else if PrimFloat.leb 1e6 value then
    "$" ++ PyFloat.format_2f (value / 1e6) ++ "M"
  else
    "$" ++ PyFloat.format_comma_2f value.

(** What the outside world answers during one call of [generate_report]:
    whether the directories can be made; what [pd.read_excel] hands back
    for the workbook on disk ([None] when a sheet does not read; the table
    read need not be the table stored, [read_excel] taking texts such as
    [NA] or the empty one for missing values); the clock at each reading;
    whether each of the two documents is built and written to its end and,
    when it is not, what is then in its file ([None]: the file is as it
    was; [Some p]: the file was opened and holds [p], a damaged document). *)
Record env := mk_env {
  dirs_ok : bool;
  read_excel : workbook -> option workbook;
  stamp : PyTime.datetime;
  latest_now : PyTime.datetime;
  latest_ok : bool;
  latest_left : option pdf;
  archive_now : PyTime.datetime;
  archive_ok : bool;
  archive_left : option pdf;
  cleanup_now : PyTime.datetime }.

(** [load_data]: [None] when the workbook is absent or does not read. *)
Definition load_data (e : env) (d : files) : option workbook :=
  match excel_file d with
  | None => None
  | Some wb => read_excel e wb
  end.

(** The document [create_pdf_report(df, analysis_df, output_path)] builds. *)
Definition create_pdf_report (now : PyTime.datetime) (df : dataframe) : pdf :=
  {| generated := "Report Generated: " ++ PyTime.strftime_iso now;
     market_data :=
       [ ["Total Market Cap"; format_currency (col_sum (map Market_Cap_USD df))];
         ["Average Price"; format_currency (col_mean (map Price_USD df))];
         ["24h Trading Volume"; format_currency (col_sum (map Volume_24h_USD df))] ];
     top_5_data :=
       ["Name"; "Price (USD)"; "Market Cap (USD)"; "24h Change (%)"]
       :: map (fun r => [ cell_str (Name r);
                          format_currency (Price_USD r);
                          format_currency (Market_Cap_USD r);
                          PyFloat.format_2f (Change_24h_pct r) ++ "%" ])
              (take 5 df) |}.

(** Writing a file into the archive directory: an entry of that name is
    replaced where it stands, a new one is added. *)
Fixpoint write_entry (n : string) (p : pdf) (dir : list (string * pdf)) : list (string * pdf) :=
  match dir with
  | [] => [(n, p)]
  | (n', p') :: r =>
      if String.eqb n n' then (n, p) :: r else (n', p') :: write_entry n p r
  end.

(** [Path(archive_dir).glob("crypto_analysis_*.pdf")] on a file name. *)
Definition glob_match (n : string) : bool :=
  PyStr.startswith n "crypto_analysis_" && PyStr.endswith n ".pdf"
  && (20 <=? String.length n)%nat.

(** [report.stem] of a name that ends in [.pdf]. *)
Definition stem (n : string) : string :=
  String.substring 0 (String.length n - 4) n.

(** ['_'.join(report.stem.split('_')[2:])] *)
Definition timestamp_str (n : string) : string :=
  PyStr.join "_" (drop 2 (PyStr.split "_" (stem n))).

(** The loop of [_cleanup_old_reports]. A name that does not parse raises
    [ValueError] inside the loop; the handler is outside it, so the loop
    ends there and the entries not yet visited stay. The boolean tells
    whether the loop ran to its end. [unlink] is taken to succeed. *)
Fixpoint cleanup_loop (current_time : PyTime.datetime) (dir : list (string * pdf))
  : list (string * pdf) * bool :=
  match dir with
  | [] => ([], true)
  | (n, p) :: rest =>
      if glob_match n then
        match PyTime.strptime_Ymd_HMS (timestamp_str n) with
        | None => (dir, false)
        | Some report_time =>
            let '(rest', done) := cleanup_loop current_time rest in
            if (PyTime.days 7 <? PyTime.sub current_time report_time)%Z
            then (rest', done)
            else ((n, p) :: rest', done)
        end
      else
        let '(rest', done) := cleanup_loop current_time rest in
        ((n, p) :: rest', done)
  end.

(** A name the glob yields and whose timestamp is more than seven days
    before [current_time]; and a name the glob yields that holds no
    timestamp. *)
Definition expired (current_time : PyTime.datetime) (n : string) : bool :=
  glob_match n &&
  match PyTime.strptime_Ymd_HMS (timestamp_str n) with
  | Some report_time => (PyTime.days 7 <? PyTime.sub current_time report_time)%Z
  | None => false
  end.

Definition stray (n : string) : bool :=
  glob_match n &&
  match PyTime.strptime_Ymd_HMS (timestamp_str n) with
  | Some _ => false
  | None => true
  end.

(** [_cleanup_old_reports(self)]: the exception, if any, is logged as a
    warning and goes no further. *)
Definition _cleanup_old_reports (current_time : PyTime.datetime) (d : files) : files :=
  {| excel_file := excel_file d;
     latest_report := latest_report d;
     archive_dir := fst (cleanup_loop current_time (archive_dir d)) |}.

(** [generate_report(self)]: the result and the files afterwards. An
    exception at any step is caught and gives [False]; what was written
    before it stays written. Each document is written in place, so one
    that fails on the way leaves in its file what the outside world says:
    the old content, or a damaged document. *)
Definition generate_report (e : env) (d : files) : bool * files :=
  if negb (dirs_ok e) then (false, d) else
  match load_data e d with
  | None => (false, d)
  | Some wb =>
      let archive_report :=
        "crypto_analysis_" ++ PyTime.strftime_Ymd_HMS (stamp e) ++ ".pdf" in
      if negb (latest_ok e) then
        (false,
         {| excel_file := excel_file d;
            latest_report :=
              match latest_left e with
              | Some p => Some p
              | None => latest_report d
              end;
            archive_dir := archive_dir d |})
      else
      let d1 := {| excel_file := excel_file d;
                   latest_report := Some (create_pdf_report (latest_now e) (live_data wb));
                   archive_dir := archive_dir d |} in
      if negb (archive_ok e) then
        (false,
         {| excel_file := excel_file d1;
            latest_report := latest_report d1;
            archive_dir :=
              match archive_left e with
              | Some p => write_entry archive_report p (archive_dir d1)
              | None => archive_dir d1
              end |})
      else
      let d2 := {| excel_file := excel_file d1;
                   latest_report := latest_report d1;
                   archive_dir :=
                     write_entry archive_report
                       (create_pdf_report (archive_now e) (live_data wb))
                       (archive_dir d1) |} in
      (true, _cleanup_old_reports (cleanup_now e) d2)
  end.

End Report.

(** ** crypto_tracker.py *)

Module Tracker.

Import Frame.

Local Open Scope Z_scope.

Definition payload := list coin.

(** The result of one [requests.get] with [raise_for_status] and [json]. *)
Inductive http :=
| Json (data : payload)
| RequestException
| OtherException.

Definition max_retries : nat := 3.

(** The retry loop of [fetch_top_50_data], from attempt [attempt] on, with
    [left] iterations of [range(max_retries)] to go. *)
Fixpoint fetch_loop (left attempt : nat) (responses : nat -> http) : option payload :=
  match left with
  | O => None
  | S left' =>
      match responses attempt with
      | Json data => Some data
      | RequestException =>
          if (attempt =? max_retries - 1)%nat then None
          else fetch_loop left' (S attempt) responses
      | OtherException => None
      end
  end.

(** [fetch_top_50_data(self)] *)
Definition fetch_top_50_data (responses : nat -> http) : option payload :=
  fetch_loop max_retries 0 responses.

Definition has_column {A} (f : coin -> cell A) (data : payload) : bool :=
  existsb (fun c => present (f c)) data.

(** [process_data(self, data)]: [None] for empty data and when selecting the
    six columns raises [KeyError], a column no record has. *)
Definition process_data (data : payload) : option dataframe :=
  match data with
  | [] => None
  | _ =>
      if has_column name data && has_column symbol data
         && has_column current_price data && has_column market_cap data
         && has_column total_volume data
         && has_column price_change_percentage_24h data
      then
        Some (map (fun c =>
                     {| Name := name c;
                        Symbol := cell_map PyStr.upper (symbol c);
                        Price_USD := to_float (current_price c);
                        Market_Cap_USD := to_float (market_cap c);
                        Volume_24h_USD := fillna0 (to_float (total_volume c));
                        Change_24h_pct := fillna0 (to_float (price_change_percentage_24h c)) |})
                  data)
      else None
  end.

Record analysis := mk_analysis {
  timestamp : string;
  top_5_by_market_cap : list (cell string);
  average_price : float;
  highest_24h_change : cell string;
  lowest_24h_change : cell string;
  highest_24h_change_value : float;
  lowest_24h_change_value : float }.

(** [analyze_data(self, df)]: [None] when [.iloc[0]] raises [IndexError],
    the table being empty. *)
Definition analyze_data (now : PyTime.datetime) (df : dataframe) : option analysis :=
  match nlargest1 Change_24h_pct df, nsmallest1 Change_24h_pct df with
  | Some hi, Some lo =>
      Some {| timestamp := PyTime.strftime_iso now;
              top_5_by_market_cap := map Name (take 5 df);
              average_price := col_mean (map Price_USD df);
              highest_24h_change := Name hi;
              lowest_24h_change := Name lo;
              highest_24h_change_value := col_max (map Change_24h_pct df);
              lowest_24h_change_value := col_min (map Change_24h_pct df) |}
  | _, _ => None
  end.

(** [', '.join(names)]: [None] for the [TypeError] a missing name raises. *)
Fixpoint names_of (l : list (cell string)) : option (list string) :=
  match l with
  | [] => Some []
  | Val s :: r =>
      match names_of r with Some t => Some (s :: t) | None => None end
  | _ :: _ => None
  end.

(** [update_excel(self, df, analysis)], [excel_ok] telling whether the
    workbook can be opened and saved: the result and the files afterwards.
    A workbook that cannot be opened stays as it was. The sheet
    [Live Data] is written before the names are joined, and the writer
    saves what it holds when its block is left, by an exception too: a
    missing name leaves a workbook with that sheet and without the sheet
    [Analysis], for which an empty [analysis_sheet] stands. *)
Definition update_excel (excel_ok : bool) (df : dataframe) (a : analysis) (d : files)
  : bool * files :=
  match names_of (top_5_by_market_cap a) with
  | None =>
      if excel_ok then
        (false,
         {| excel_file := Some {| live_data := df; analysis_sheet := [] |};
            latest_report := latest_report d;
            archive_dir := archive_dir d |})
      else (false, d)
  | Some names =>
      if excel_ok then
        (true,
         {| excel_file :=
              Some {| live_data := df;
                      analysis_sheet :=
                        [ ("Last Updated", timestamp a);
                          ("Top 5 by Market Cap", PyStr.join ", " names);
                          ("Average Price (USD)",
                           "$" ++ PyFloat.format_2f (average_price a));
                          ("Highest 24h Change",
                           cell_str (highest_24h_change a) ++ " ("
                           ++ PyFloat.format_2f (highest_24h_change_value a) ++ "%)");
                          ("Lowest 24h Change",
                           cell_str (lowest_24h_change a) ++ " ("
                           ++ PyFloat.format_2f (lowest_24h_change_value a) ++ "%)") ] |};
            latest_report := latest_report d;
            archive_dir := archive_dir d |})
      else (false, d)
  end.

(** *** The loop of [run]

    The state the loop carries: the attribute [last_report_time], the local
    [errors_count], the files, and a log of the calls made, oldest first. *)

Inductive event :=
| EvFetch                (* fetch_top_50_data is called *)
| EvStore (ok : bool)    (* update_excel returned *)
| EvReport (ok : bool)   (* generate_report returned *)
| EvSleep (secs : Z).    (* time.sleep(update_interval) returned *)

Record tracker := mk_tracker {
  last_report_time : option PyTime.datetime;
  errors_count : Z;
  disk : files;
  log : list event }.

(** [self.report_interval = timedelta(minutes=5)] *)
Definition report_interval : PyTime.timedelta := PyTime.minutes 5.

Definition max_errors : Z := 5.

(** Exceptions, as the two handlers of the loop tell them apart. *)
Inductive exn := Error | KeyboardInterrupt.

(** Where, in the body of the loop, the outside world may raise one. *)
Inductive point := AtFetch | AtAnalyze | AtSleep.

(** What the outside world answers during one iteration. *)
Record cycle_env := mk_cycle_env {
  now : PyTime.datetime;          (* current_time = datetime.now() *)
  responses : nat -> http;        (* the HTTP exchange, by attempt *)
  analysis_now : PyTime.datetime; (* the clock in analyze_data *)
  excel_ok : bool;                (* whether the workbook can be written *)
  report_env : Report.env;        (* the answers to generate_report *)
  fault : option (point * exn) }. (* an exception raised from outside *)

(** How a statement ends other than by falling through. *)
Inductive exit := Continue | Break | Raise (k : exn).

(** Statements: state passing, with an early exit. *)
Definition M (A : Type) : Type := tracker -> (A + exit) * tracker.

Definition ret {A} (a : A) : M A := fun t => (inl a, t).
Definition leave {A} (x : exit) : M A := fun t => (inr x, t).
Definition bind {A B} (m : M A) (k : A -> M B) : M B :=
  fun t => match m t with
           | (inl a, t') => k a t'
           | (inr x, t') => (inr x, t')
           end.

Notation "x <- m ;; k" := (bind m (fun x => k))
  (at level 100, m at next level, right associativity).
Notation "m ;;; k" := (bind m (fun _ => k))
  (at level 100, right associativity).

Definition get {A} (f : tracker -> A) : M A := fun t => (inl (f t), t).
Definition emit (ev : event) : M unit :=
  fun t => (inl tt, mk_tracker (last_report_time t) (errors_count t) (disk t) (log t ++ [ev])).
Definition set_errors_count (n : Z) : M unit :=
  fun t => (inl tt, mk_tracker (last_report_time t) n (disk t) (log t)).
Definition set_last_report_time (d : PyTime.datetime) : M unit :=
  fun t => (inl tt, mk_tracker (Some d) (errors_count t) (disk t) (log t)).
Definition set_disk (d : files) : M unit :=
  fun t => (inl tt, mk_tracker (last_report_time t) (errors_count t) d (log t)).

(** An exception the outside world raises at point [p], if any. *)
Definition raised (e : cycle_env) (p : point) : option exn :=
  match fault e with
  | Some (AtFetch, k) => match p with AtFetch => Some k | _ => None end
  | Some (AtAnalyze, k) => match p with AtAnalyze => Some k | _ => None end
  | Some (AtSleep, k) => match p with AtSleep => Some k | _ => None end
  | None => None
  end.

(** [data = self.fetch_top_50_data()]: the function catches every
    [Exception] and returns [None]; a [KeyboardInterrupt] goes through. *)
Definition call_fetch (e : cycle_env) : M (option payload) :=
  emit EvFetch ;;;
  match raised e AtFetch with
  | Some KeyboardInterrupt => leave (Raise KeyboardInterrupt)
  | Some Error => ret None
  | None => ret (fetch_top_50_data (responses e))
  end.

(** [analysis = self.analyze_data(df)]: nothing catches what it raises. *)
Definition call_analyze (e : cycle_env) (df : dataframe) : M analysis :=
  match raised e AtAnalyze with
  | Some k => leave (Raise k)
  | None =>
      match analyze_data (analysis_now e) df with
      | Some a => ret a
      | None => leave (Raise Error)
      end
  end.

Definition call_update_excel (e : cycle_env) (df : dataframe) (a : analysis) : M bool :=
  d <- get disk ;;
  let '(ok, d') := update_excel (excel_ok e) df a d in
  set_disk d' ;;;
  emit (EvStore ok) ;;;
  ret ok.

Definition call_generate_report (r : Report.env) : M bool :=
  d <- get disk ;;
  let '(ok, d') := Report.generate_report r d in
  set_disk d' ;;;
  emit (EvReport ok) ;;;
  ret ok.

(** [time.sleep(update_interval)] *)
Definition call_sleep (e : cycle_env) (update_interval : Z) : M unit :=
  match raised e AtSleep with
  | Some k => leave (Raise k)
  | None => emit (EvSleep update_interval)
  end.

(** [not self.last_report_time or
     current_time - self.last_report_time >= self.report_interval] *)
Definition report_due (lrt : option PyTime.datetime) (current_time : PyTime.datetime) : bool :=
  match lrt with
  | None => true
  | Some l => report_interval <=? PyTime.sub current_time l
  end.

(** [not data]: [None] and the empty list. *)
Definition falsy (data : option payload) : bool :=
  match data with
  | Some (_ :: _) => false
  | _ => true
  end.

(** The [try] block of the loop, lines 158 to 191. *)
Definition body (update_interval : Z) (e : cycle_env) : M unit :=
  let current_time := now e in
  data <- call_fetch e ;;
  match data with
  | Some ((_ :: _) as data) =>
      match process_data data with
      | Some df =>
          a <- call_analyze e df ;;
          stored <- call_update_excel e df a ;;
          if stored then
            set_errors_count 0 ;;;
            lrt <- get last_report_time ;;
            if report_due lrt current_time then
              ok <- call_generate_report (report_env e) ;;
              if ok then set_last_report_time current_time else ret tt
            else ret tt
          else ret tt
      | None => ret tt
      end ;;;
      call_sleep e update_interval
  | _ =>
      n <- get errors_count ;;
      set_errors_count (n + 1) ;;;
      n <- get errors_count ;;
      if max_errors <=? n then leave Break else leave Continue
  end.

(** How [run] stands once the script of answers is used up. *)
Inductive status :=
| Running        (* the loop is still going *)
| Stopped        (* [break] after too many errors *)
| Interrupted    (* [break] on KeyboardInterrupt *)
| Crashed.       (* an exception left [run] *)

(** [while True: try: body except KeyboardInterrupt: break
     except Exception: errors_count += 1], one iteration per element of
    [es]. *)
Fixpoint loop (update_interval : Z) (es : list cycle_env) (t : tracker) : status * tracker :=
  match es with
  | [] => (Running, t)
  | e :: es' =>
      match body update_interval e t with
      | (inl _, t') => loop update_interval es' t'
      | (inr Continue, t') => loop update_interval es' t'
      | (inr Break, t') => (Stopped, t')
      | (inr (Raise KeyboardInterrupt), t') => (Interrupted, t')
      | (inr (Raise Error), t') =>
          loop update_interval es'
            (mk_tracker (last_report_time t') (errors_count t' + 1) (disk t') (log t'))
      end
  end.

(** What the outside world answers before the loop: to the two calls of
    lines 142 and 146, and the clock of line 148. *)
Record boot_env := mk_boot_env {
  boot_dirs_ok : bool;
  boot_report : Report.env;
  boot_now : PyTime.datetime }.

(** The state when the loop is entered: [None] when [create_directories]
    raised at line 142. *)
Definition startup (b : boot_env) (d : files) : option tracker :=
  if boot_dirs_ok b then
    let '(success, d') := Report.generate_report (boot_report b) d in
    Some {| last_report_time := if success then Some (boot_now b) else None;
            errors_count := 0;
            disk := d';
            log := [EvReport success] |}
  else None.

(** [run(self, update_interval=300)] on a fresh [CryptoTracker]. *)
Definition run (update_interval : Z) (b : boot_env) (es : list cycle_env) (d : files)
  : status * tracker :=
  match startup b d with
  | Some t => loop update_interval es t
  | None => (Crashed, mk_tracker None 0 d [])
  end.

(** *** Reading an iteration and a log *)

(** The fetch of the iteration fails: [fetch_top_50_data] returns [None] or
    an empty payload. *)
Definition fetch_failed (e : cycle_env) : bool :=
  match raised e AtFetch with
  | Some KeyboardInterrupt => false
  | Some Error => true
  | None => falsy (fetch_top_50_data (responses e))
  end.

(** The fetch of the iteration returns the payload [data], which is not
    empty. *)
Definition fetch_returns (e : cycle_env) (data : payload) : Prop :=
  raised e AtFetch = None /\ fetch_top_50_data (responses e) = Some data /\ data <> [].

(** The fetch returns a payload that is not empty and the transform
    fails on it. *)
Definition transform_failed (e : cycle_env) : bool :=
  match raised e AtFetch, fetch_top_50_data (responses e) with
  | None, Some ((_ :: _) as data) =>
      match process_data data with None => true | Some _ => false end
  | _, _ => false
  end.

(** The fetch and the transform work and [analyze_data] raises an
    exception that is not a [KeyboardInterrupt]. *)
Definition analyze_raises (e : cycle_env) : bool :=
  match raised e AtFetch, fetch_top_50_data (responses e) with
  | None, Some ((_ :: _) as data) =>
      match process_data data, raised e AtAnalyze with
      | Some _, Some Error => true
      | _, _ => false
      end
  | _, _ => false
  end.

(** Nothing is raised during the sleep of the iteration. *)
Definition sleep_returns (e : cycle_env) : bool :=
  match raised e AtSleep with None => true | Some _ => false end.

Definition is_fetch (ev : event) : bool :=
  match ev with EvFetch => true | _ => false end.
Definition is_report (ev : event) : bool :=
  match ev with EvReport _ => true | _ => false end.
Definition is_sleep (ev : event) : bool :=
  match ev with EvSleep _ => true | _ => false end.

Definition is_stored (ev : event) : bool :=
  match ev with EvStore ok => ok | _ => false end.

(** The number of calls of [fetch_top_50_data], and of [generate_report],
    in a log, and the number of calls of [update_excel] that returned
    [True]. *)
Definition fetches (l : list event) : nat := length (List.filter is_fetch l).
Definition reports (l : list event) : nat := length (List.filter is_report l).
Definition stores (l : list event) : nat := length (List.filter is_stored l).

(** The state after [ev] is logged, and after the fields the loop assigns
    are set. *)
Definition logged (evs : list event) (t : tracker) : tracker :=
  mk_tracker (last_report_time t) (errors_count t) (disk t) (log t ++ evs).

End Tracker.

(** ** Sample inputs *)

Module Sample.

Import Frame Tracker.

Local Open Scope Z_scope.

Definition at_noon (d : Z) (minute second : Z) : PyTime.datetime :=
  PyTime.mk_datetime 2024 3 d 12 minute second 0.

(** A world in which every step of [generate_report] works, at instant [t]. *)
Definition fine (t : PyTime.datetime) : Report.env :=
  Report.mk_env true (fun wb => Some wb) t t true None t true None t.

(** The same, but the archive copy cannot be written. *)
Definition archive_full (t : PyTime.datetime) : Report.env :=
  Report.mk_env true (fun wb => Some wb) t t true None t false None t.

(** A document cut short: no line, no table. *)
Definition torn : pdf := mk_pdf "" [] [].

(** The writing of the latest report breaks off and leaves it cut short;
    and the same for the archive copy. *)
Definition latest_torn (t : PyTime.datetime) : Report.env :=
  Report.mk_env true (fun wb => Some wb) t t false (Some torn) t true None t.

Definition archive_torn (t : PyTime.datetime) : Report.env :=
  Report.mk_env true (fun wb => Some wb) t t true None t false (Some torn) t.

Definition bitcoin : coin :=
  mk_coin (Val "Bitcoin") (Val "btc") (Val 50000%float) (Val 1e12%float)
          (Val 3e10%float) (Val 1.5%float).

Definition ethereum : coin :=
  mk_coin (Val "Ethereum") (Val "eth") (Val 3000%float) (Val 4e11%float) Null Absent.

(** A record without the key [symbol]. *)
Definition nameless : coin :=
  mk_coin (Val "Tether") Absent (Val 1%float) (Val 1e11%float) Null Absent.

(** An iteration at [t] in which everything works. *)
Definition good (t : PyTime.datetime) : cycle_env :=
  mk_cycle_env t (fun _ => Json [bitcoin; ethereum]) t true (fine t) None.

(** An iteration whose three HTTP attempts fail. *)
Definition offline (t : PyTime.datetime) : cycle_env :=
  mk_cycle_env t (fun _ => RequestException) t true (fine t) None.

(** An iteration whose payload lacks a column. *)
Definition misshapen (t : PyTime.datetime) : cycle_env :=
  mk_cycle_env t (fun _ => Json [nameless]) t true (fine t) None.

(** An iteration in which the workbook cannot be written. *)
Definition readonly (t : PyTime.datetime) : cycle_env :=
  mk_cycle_env t (fun _ => Json [bitcoin; ethereum]) t false (fine t) None.

(** An iteration in which [analyze_data] raises. *)
Definition faulty (t : PyTime.datetime) : cycle_env :=
  mk_cycle_env t (fun _ => Json [bitcoin; ethereum]) t true (fine t)
               (Some (AtAnalyze, Error)).

(** An iteration in which the report cannot be archived. *)
Definition unarchived (t : PyTime.datetime) : cycle_env :=
  mk_cycle_env t (fun _ => Json [bitcoin; ethereum]) t true (archive_full t) None.

Definition boot (t : PyTime.datetime) : boot_env := mk_boot_env true (fine t) t.

(** No file yet. *)
Definition fresh : files := mk_files None None [].

Definition old_table : dataframe :=
  [mk_row (Val "Bitcoin") (Val "BTC") 48000 9e11 2e10 (-0.5)].

(** Seven coins as [process_data] hands them on, in the order of the
    payload, and their analysis at twelve o'clock and one second. *)
Definition seven_table : dataframe :=
  [ mk_row (Val "Bitcoin") (Val "BTC") 70000 1.3e12 3e10 1.5;
    mk_row (Val "Ethereum") (Val "ETH") 3500 4e11 1.5e10 (-2.25);
    mk_row (Val "Tether") (Val "USDT") 1 1.1e11 5e10 0;
    mk_row (Val "BNB") (Val "BNB") 600 9e10 2e9 3.5;
    mk_row (Val "Solana") (Val "SOL") 150 8e10 3e9 (-4.75);
    mk_row (Val "XRP") (Val "XRP") 0.5 3e10 1e9 0.25;
    mk_row (Val "USDC") (Val "USDC") 1 2.5e10 6e9 0 ].

Definition seven_analysis : analysis :=
  mk_analysis "2024-03-10 12:00:01"
    [Val "Bitcoin"; Val "Ethereum"; Val "Tether"; Val "BNB"; Val "Solana"]
    10607.5 (Val "BNB") (Val "Solana") 3.5 (-4.75).

Definition old_pdf : pdf :=
  Report.create_pdf_report (at_noon 9 0 0) old_table.

(** The analysis [update_excel] wrote with that table. *)
Definition old_sheet : list (string * string) :=
  [ ("Last Updated", "2024-03-09 12:00:00");
    ("Top 5 by Market Cap", "Bitcoin");
    ("Average Price (USD)", "$48000.00");
    ("Highest 24h Change", "Bitcoin (-0.50%)");
    ("Lowest 24h Change", "Bitcoin (-0.50%)") ].

(** The files an earlier run left: a workbook, a latest report and its
    archive copy. *)
Definition stocked : files :=
  mk_files (Some (mk_workbook old_table old_sheet))
           (Some old_pdf)
           [("crypto_analysis_20240309_120000.pdf", old_pdf)].

(** An archive with a report of eight days ago, one of three days ago and
    a file whose name holds no timestamp, in two scan orders. *)
Definition archive_stray_first : list (string * pdf) :=
  [ ("crypto_analysis_final_copy.pdf", old_pdf);
    ("crypto_analysis_20240302_120000.pdf", old_pdf);
    ("crypto_analysis_20240307_120000.pdf", old_pdf) ].

(** An archive with a report of eight days ago, one of seven days ago to
    the second, a file of another kind and a report of three days ago. *)
Definition archive_week : list (string * pdf) :=
  [ ("crypto_analysis_20240302_120000.pdf", old_pdf);
    ("crypto_analysis_20240303_120000.pdf", old_pdf);
    ("notes.txt", torn);
    ("crypto_analysis_20240307_120000.pdf", old_pdf) ].

Definition archive_stray_last : list (string * pdf) :=
  [ ("crypto_analysis_20240302_120000.pdf", old_pdf);
    ("crypto_analysis_20240307_120000.pdf", old_pdf);
    ("crypto_analysis_final_copy.pdf", old_pdf) ].

End Sample.

(** * Properties *)

(** ** Formatting of amounts *)

Section FloatOrder.

Local Open Scope Z_scope.

Lemma SFcompare_Lt_Gt (a b : spec_float) :
  SFcompare a b = Some Lt -> SFcompare b a = Some Gt.
Proof.
  destruct a as [sa|sa| |sa ma ea], b as [sb|sb| |sb mb eb];
    simpl; try discriminate;
    try (destruct sa; simpl; congruence);
    try (destruct sb; simpl; congruence);
    try (destruct sa, sb; simpl; congruence).
  pose proof (Pos.compare_cont_antisym mb ma Eq) as A. simpl in A.
  destruct sa, sb; simpl; try congruence;
    rewrite (Z.compare_antisym ea eb);
    destruct (ea ?= eb); simpl; try congruence;
    rewrite <- A;
    destruct (Pos.compare_cont Eq mb ma); simpl; congruence.
Qed.

(** [x < y] excludes [y <= x]. *)
Lemma ltb_not_leb (x y : float) :
  PrimFloat.ltb x y = true -> PrimFloat.leb y x = false.
Proof.
  rewrite ltb_spec, leb_spec. unfold SFltb, SFleb. intros H.
  destruct (SFcompare (Prim2SF x) (Prim2SF y)) as [[]|] eqn:E; try discriminate.
  now rewrite (SFcompare_Lt_Gt _ _ E).
Qed.

End FloatOrder.

Section Formatting.

Local Open Scope Z_scope.

Lemma chars_of_chars (l : list ascii) : PyStr.chars (PyStr.of_chars l) = l.
Proof. induction l as [|c l IH]; simpl; congruence. Qed.

Lemma of_chars_chars (s : string) : PyStr.of_chars (PyStr.chars s) = s.
Proof. induction s as [|c s IH]; simpl; congruence. Qed.

Lemma chars_app (a b : string) :
  PyStr.chars (a ++ b) = (PyStr.chars a ++ PyStr.chars b)%list.
Proof. induction a as [|c a IH]; simpl; congruence. Qed.

Lemma of_chars_app (a b : list ascii) :
  PyStr.of_chars (a ++ b) = PyStr.of_chars a ++ PyStr.of_chars b.
Proof. induction a as [|c a IH]; simpl; congruence. Qed.

Lemma string_of_uint_digits (u : Decimal.uint) :
  forallb PyStr.is_digit (PyStr.chars (NilEmpty.string_of_uint u)) = true.
Proof. induction u; simpl; auto. Qed.

(** [str(n)] is a text of digits, and the decimal numeral of [n]: read as
    one it gives [n] back. *)
Lemma str_nat_all_digits (n : Z) : PyStr.all_digits (PyStr.str_nat n) = true.
Proof.
  unfold PyStr.str_nat, NilZero.string_of_uint.
  destruct (N.to_uint (Z.to_N n)) as [|u|u|u|u|u|u|u|u|u|u] eqn:E; try reflexivity;
    unfold PyStr.all_digits; simpl; apply (string_of_uint_digits u).
Qed.

Lemma str_nat_reads_back (n : Z) :
  option_map N.of_uint (NilZero.uint_of_string (PyStr.str_nat n)) = Some (Z.to_N n).
Proof.
  unfold PyStr.str_nat. rewrite NilZero.usu.
  - simpl. rewrite DecimalN.Unsigned.of_to. reflexivity.
  - destruct (Z.to_N n) as [|p]; simpl;
      [discriminate|apply DecimalPos.Unsigned.to_uint_nonnil].
Qed.

(** [div_half_even] is the integer nearest to the quotient, and the even
    one of the two at a tie. *)
Lemma div_half_even_spec (n d : Z) :
  0 <= n -> 0 < d ->
  0 <= PyFloat.div_half_even n d
  /\ Z.abs (2 * (PyFloat.div_half_even n d * d - n)) <= d
  /\ (Z.abs (2 * (PyFloat.div_half_even n d * d - n)) = d ->
      Z.even (PyFloat.div_half_even n d) = true).
Proof.
  intros Hn Hd. unfold PyFloat.div_half_even.
  pose proof (Z.div_mod n d ltac:(lia)) as E.
  pose proof (Z.mod_pos_bound n d Hd) as B.
  pose proof (Z.div_pos n d Hn Hd) as Q.
  set (q := n / d) in *. set (r := n mod d) in *.
  destruct (2 * r <? d) eqn:E1; [apply Z.ltb_lt in E1|apply Z.ltb_ge in E1].
  - split; [lia|]. split; [nia|]. intros H. exfalso. nia.
  - destruct (d <? 2 * r) eqn:E2; [apply Z.ltb_lt in E2|apply Z.ltb_ge in E2].
    + split; [lia|]. split; [nia|]. intros H. exfalso. nia.
    + destruct (Z.even q) eqn:E3.
      * split; [lia|]. split; [nia|]. intros _. exact E3.
      * split; [lia|]. split; [nia|]. intros _.
        rewrite Z.add_1_r, Z.even_succ, <- Z.negb_even, E3. reflexivity.
Qed.

(** The hundredths of the float of mantissa [m] and exponent [e], whose
    absolute value is [m * 2 ^ e]: that value times 100 when it is an
    integer, and else the integer nearest to it, the even one at a tie. *)
Lemma hundredths_spec (m : positive) (e : Z) :
  0 <= PyFloat.hundredths m e
  /\ (0 <= e -> PyFloat.hundredths m e = Z.pos m * 2 ^ e * 100)
  /\ (e < 0 ->
      Z.abs (2 * (PyFloat.hundredths m e * 2 ^ (- e) - Z.pos m * 100)) <= 2 ^ (- e)
      /\ (Z.abs (2 * (PyFloat.hundredths m e * 2 ^ (- e) - Z.pos m * 100)) = 2 ^ (- e) ->
          Z.even (PyFloat.hundredths m e) = true)).
Proof.
  unfold PyFloat.hundredths.
  destruct (0 <=? e) eqn:E; [apply Z.leb_le in E|apply Z.leb_gt in E].
  - split; [|split; [reflexivity|lia]].
    assert (0 < 2 ^ e) by (apply Z.pow_pos_nonneg; lia). nia.
  - assert (Hd : 0 < 2 ^ (- e)) by (apply Z.pow_pos_nonneg; lia).
    destruct (div_half_even_spec (Z.pos m * 100) (2 ^ (- e)) ltac:(lia) Hd) as (H0 & H1 & H2).
    split; [exact H0|]. split; [lia|]. intros _. split; assumption.
Qed.

(** Thousands separators: up to three digits take none, and a text of
    more takes a comma before its last three digits and those that its
    front takes. *)
Lemma group3_short (digits : string) :
  (String.length digits <= 3)%nat -> PyStr.group3 digits = digits.
Proof.
  destruct digits as [|a [|b [|c [|d r]]]]; simpl; try reflexivity. lia.
Qed.

Lemma group3_step (front last3 : string) :
  front <> "" -> String.length last3 = 3%nat ->
  PyStr.group3 (front ++ last3) = PyStr.group3 front ++ "," ++ last3.
Proof.
  intros Hf Hl. destruct last3 as [|a [|b [|c [|d r]]]]; try discriminate Hl.
  unfold PyStr.group3. rewrite chars_app. simpl PyStr.chars at 2.
  rewrite rev_app_distr. simpl rev at 2. simpl app at 1.
  destruct (rev (PyStr.chars front)) as [|x l] eqn:E.
  - exfalso. apply Hf. destruct front; [reflexivity|].
    apply (f_equal (@length ascii)) in E. rewrite length_rev in E. discriminate E.
  - change (PyStr.group3_rev (c :: b :: a :: x :: l))
      with (c :: b :: a :: ","%char :: PyStr.group3_rev (x :: l)).
    simpl rev. rewrite <- !app_assoc. rewrite of_chars_app. reflexivity.
Qed.

(** The fraction of an amount is written with exactly two digits. *)
Lemma frac_part_two_digits (h : Z) : PyStr.two_digits (PyFloat.frac_part h) = true.
Proof.
  unfold PyFloat.frac_part.
  assert (Hr : 0 <= h mod 100 < 100) by (apply Z.mod_pos_bound; lia).
  assert (Hall : forallb (fun k => PyStr.two_digits (PyStr.zfill 2 (PyStr.str_nat (Z.of_nat k))))
                         (seq 0 100) = true) by (vm_compute; reflexivity).
  rewrite forallb_forall in Hall.
  rewrite <- (Z2Nat.id (h mod 100)) by lia.
  apply Hall. apply in_seq. lia.
Qed.

(** Grouping only adds commas: without them the digits are as before. *)
Lemma group3_rev_strip (n : nat) (l : list ascii) :
  (length l <= n)%nat ->
  List.filter (fun c => negb (Ascii.eqb c ","%char)) l = l ->
  List.filter (fun c => negb (Ascii.eqb c ","%char)) (PyStr.group3_rev l) = l.
Proof.
  revert l. induction n as [|n IH]; intros l Hlen Hl.
  - destruct l; [reflexivity|simpl in Hlen; lia].
  - destruct l as [|a [|b [|c [|d r]]]]; try exact Hl.
    assert (Hf : forall (x : ascii) (k : list ascii),
               List.filter (fun c => negb (Ascii.eqb c ","%char)) (x :: k) = x :: k ->
               negb (Ascii.eqb x ","%char) = true
               /\ List.filter (fun c => negb (Ascii.eqb c ","%char)) k = k).
    { intros x k H. simpl in H. destruct (negb (Ascii.eqb x ","%char)) eqn:E.
      - injection H as H. auto.
      - exfalso.
        assert (Hle := List.filter_length_le (fun c => negb (Ascii.eqb c ","%char)) k).
        rewrite H in Hle. simpl in Hle. lia. }
    destruct (Hf _ _ Hl) as [Ha Hl1]. destruct (Hf _ _ Hl1) as [Hb Hl2].
    destruct (Hf _ _ Hl2) as [Hc Hl3].
    change (PyStr.group3_rev (a :: b :: c :: d :: r))
      with (a :: b :: c :: ","%char :: PyStr.group3_rev (d :: r)).
    cbn [List.filter]. rewrite Ha, Hb, Hc. cbn [Ascii.eqb Bool.eqb negb].
    rewrite (IH (d :: r)); [reflexivity| simpl in *; lia | exact Hl3].
Qed.

Lemma group3_strip (s : string) :
  PyStr.strip_commas s = s -> PyStr.strip_commas (PyStr.group3 s) = s.
Proof.
  unfold PyStr.strip_commas, PyStr.group3. intros H.
  rewrite chars_of_chars, List.filter_rev.
  assert (Hs : List.filter (fun c => negb (Ascii.eqb c ","%char)) (PyStr.chars s)
               = PyStr.chars s).
  { rewrite <- H at 2. rewrite chars_of_chars. reflexivity. }
  rewrite (group3_rev_strip (length (rev (PyStr.chars s))) (rev (PyStr.chars s))).
  - rewrite rev_involutive. apply of_chars_chars.
  - lia.
  - rewrite List.filter_rev, Hs. reflexivity.
Qed.

(** A finite amount is written as a sign, an integer part, a point and two
    digits, and with thousands separators as the same but for the commas in
    the integer part. *)
Lemma format_2f_finite (x : float) (s : bool) (m : positive) (e : Z) :
  Prim2SF x = S754_finite s m e ->
  exists ip fp,
    PyFloat.format_2f x = PyFloat.sign_str s ++ ip ++ "." ++ fp
    /\ PyFloat.format_comma_2f x = PyFloat.sign_str s ++ PyStr.group3 ip ++ "." ++ fp
    /\ PyStr.two_digits fp = true.
Proof.
  intros H. unfold PyFloat.format_2f, PyFloat.format_comma_2f. rewrite H.
  eexists. eexists. split; [reflexivity|]. split; [reflexivity|].
  apply frac_part_two_digits.
Qed.

End Formatting.

(** C8. [format_currency] writes amounts of at least 1e9 as billions with
    two decimals and a [B], amounts from 1e6 up to 1e9 as millions with two
    decimals and an [M], and every other amount with thousands separators
    and two decimals; 999 gives [$999.00], 1_500_000 gives [$1.50M] and
    2_300_000_000 gives [$2.30B]. Two decimals: a finite amount is written
    as a minus sign when it is negative, the decimal numeral of the whole
    part of its hundredths, a point and two digits, the hundredths being
    the integer nearest to a hundred times its absolute value, the even one
    at a tie. Thousands separators: a comma before every group of three
    digits of the whole part, counted from the right. The bounds 1e6 and
    1e9 are included, and an amount just below 1e9 is written [$1000.00M]. *)
Theorem format_currency_magnitudes (value : float) :
  (PrimFloat.leb 1e9 value = true ->
     Report.format_currency value = "$" ++ PyFloat.format_2f (value / 1e9) ++ "B")
  /\ (PrimFloat.leb 1e6 value = true -> PrimFloat.ltb value 1e9 = true ->
     Report.format_currency value = "$" ++ PyFloat.format_2f (value / 1e6) ++ "M")
  /\ (PrimFloat.leb 1e9 value = false -> PrimFloat.leb 1e6 value = false ->
     Report.format_currency value = "$" ++ PyFloat.format_comma_2f value)
  /\ Report.format_currency 999 = "$999.00"
  /\ Report.format_currency 1500000 = "$1.50M"
  /\ Report.format_currency 2300000000 = "$2.30B"
  /\ (forall s m e,
        Prim2SF value = S754_finite s m e ->
        PyFloat.format_2f value
        = (if s then "-" else "")
          ++ PyStr.str_nat (PyFloat.hundredths m e / 100) ++ "."
          ++ PyStr.zfill 2 (PyStr.str_nat (PyFloat.hundredths m e mod 100))
        /\ PyFloat.format_comma_2f value
           = (if s then "-" else "")
             ++ PyStr.group3 (PyStr.str_nat (PyFloat.hundredths m e / 100)) ++ "."
             ++ PyStr.zfill 2 (PyStr.str_nat (PyFloat.hundredths m e mod 100))
        /\ PyStr.two_digits
             (PyStr.zfill 2 (PyStr.str_nat (PyFloat.hundredths m e mod 100))) = true)
  /\ (forall m e,
        (0 <= PyFloat.hundredths m e)%Z
        /\ ((0 <= e)%Z -> PyFloat.hundredths m e = (Z.pos m * 2 ^ e * 100)%Z)
        /\ ((e < 0)%Z ->
            (Z.abs (2 * (PyFloat.hundredths m e * 2 ^ (- e) - Z.pos m * 100)) <= 2 ^ (- e))%Z
            /\ (Z.abs (2 * (PyFloat.hundredths m e * 2 ^ (- e) - Z.pos m * 100))
                = (2 ^ (- e))%Z ->
                Z.even (PyFloat.hundredths m e) = true)))
  /\ (forall n,
        PyStr.all_digits (PyStr.str_nat n) = true
        /\ option_map N.of_uint (NilZero.uint_of_string (PyStr.str_nat n))
           = Some (Z.to_N n))
  /\ (forall digits, (String.length digits <= 3)%nat -> PyStr.group3 digits = digits)
  /\ (forall front last3,
        front <> "" -> String.length last3 = 3%nat ->
        PyStr.group3 (front ++ last3) = PyStr.group3 front ++ "," ++ last3)
  /\ Report.format_currency 0 = "$0.00"
  /\ Report.format_currency 1234.5 = "$1,234.50"
  /\ Report.format_currency 1234.0625 = "$1,234.06"
  /\ Report.format_currency 999999.75 = "$999,999.75"
  /\ Report.format_currency 0.125 = "$0.12"
  /\ Report.format_currency 0.375 = "$0.38"
  /\ Report.format_currency (-1234.5625) = "$-1,234.56"
  /\ Report.format_currency (-5000000000) = "$-5,000,000,000.00"
  /\ Report.format_currency 1000000 = "$1.00M"
  /\ Report.format_currency 1005000 = "$1.00M"
  /\ Report.format_currency 12345678 = "$12.35M"
  /\ Report.format_currency 999999999 = "$1000.00M"
  /\ Report.format_currency 1000000000 = "$1.00B"
  /\ Report.format_currency 1234567890 = "$1.23B".
Proof.
  split; [|split; [|split]].
  { unfold Report.format_currency. intros ->. reflexivity. }
  { unfold Report.format_currency. intros H6 H9.
    rewrite (ltb_not_leb _ _ H9), H6. reflexivity. }
  { unfold Report.format_currency. intros -> ->. reflexivity. }
  split; [reflexivity|]. split; [reflexivity|]. split; [reflexivity|].
  split.
  { intros s m e H. unfold PyFloat.format_2f, PyFloat.format_comma_2f. rewrite H.
    split; [destruct s; reflexivity|]. split; [destruct s; reflexivity|].
    apply frac_part_two_digits. }
  split; [exact hundredths_spec|].
  split; [intros n; split; [apply str_nat_all_digits|apply str_nat_reads_back]|].
  split; [exact group3_short|].
  split; [exact group3_step|].
  repeat split; vm_compute; reflexivity.
Qed.

Lemma format_currency_magnitudes_witness :
  Report.format_currency 2300000000 = "$" ++ PyFloat.format_2f (2300000000 / 1e9) ++ "B"
  /\ Report.format_currency 1500000 = "$" ++ PyFloat.format_2f (1500000 / 1e6) ++ "M"
  /\ Report.format_currency 999 = "$" ++ PyFloat.format_comma_2f 999
  /\ PyFloat.format_comma_2f (-1234.5625)
     = "-" ++ PyStr.group3 (PyStr.str_nat (123456 / 100)) ++ "."
       ++ PyStr.zfill 2 (PyStr.str_nat (123456 mod 100))
  /\ PyStr.group3 ("1" ++ "234") = PyStr.group3 "1" ++ "," ++ "234".
Proof.
  split; [|split; [|split; [|split]]].
  - apply (proj1 (format_currency_magnitudes 2300000000)). reflexivity.
  - apply (proj1 (proj2 (format_currency_magnitudes 1500000))); reflexivity.
  - apply (proj1 (proj2 (proj2 (format_currency_magnitudes 999)))); reflexivity.
  - destruct (format_currency_magnitudes (-1234.5625))
      as (_ & _ & _ & _ & _ & _ & H & _).
    destruct (H true 5429663295864832%positive (-42)%Z eq_refl) as (_ & H2 & _).
    exact H2.
  - destruct (format_currency_magnitudes 0)
      as (_ & _ & _ & _ & _ & _ & _ & _ & _ & _ & H & _).
    apply H; [discriminate|reflexivity].
Defined.

(** ** The analysis of a table *)

Section Analysis.

Import Frame Tracker.

(** The selections [nlargest(1, ...)] and [nsmallest(1, ...)] find a row in
    every table that has one. *)
Lemma fold_pick_some {A} (f : option A -> A -> option A) (l : list A) (acc : option A) :
  (forall o r, is_Some (f o r)) -> is_Some acc -> is_Some (fold_left f l acc).
Proof.
  intros Hf. revert acc. induction l as [|r l IH]; simpl; intros acc Hacc.
  - exact Hacc.
  - apply IH, Hf.
Qed.

Lemma nlargest1_some (key : row -> float) (df : dataframe) :
  df <> [] -> is_Some (nlargest1 key df).
Proof.
  destruct df as [|r df]; [congruence|]. intros _. unfold nlargest1. simpl.
  apply fold_pick_some; [|eauto].
  intros [b|] r'; [|eauto].
  destruct (_ || _); eauto.
Qed.

Lemma nsmallest1_some (key : row -> float) (df : dataframe) :
  df <> [] -> is_Some (nsmallest1 key df).
Proof.
  destruct df as [|r df]; [congruence|]. intros _. unfold nsmallest1. simpl.
  apply fold_pick_some; [|eauto].
  intros [b|] r'; [|eauto].
  destruct (_ || _); eauto.
Qed.

(** The first [n] names are a subsequence of all the names. *)
Lemma sublist_map_take {A B} (f : A -> B) (n : nat) (l : list A) :
  sublist (map f (take n l)) (map f l).
Proof.
  revert n. induction l as [|x l IH]; intros [|n]; simpl.
  - constructor.
  - constructor.
  - apply sublist_nil_l.
  - apply sublist_skip, IH.
Qed.

(** A table that [process_data] returns has a row for each record of the
    payload, in the payload's order, and so is not empty. *)
Lemma process_data_names (data : payload) (df : dataframe) :
  process_data data = Some df ->
  df <> [] /\ map Name df = map name data.
Proof.
  unfold process_data. destruct data as [|c data]; [discriminate|].
  destruct (_ && _); [|discriminate].
  intros [= <-]. split; [discriminate|].
  simpl. f_equal. rewrite map_map. reflexivity.
Qed.

End Analysis.

(** C9. On every table that is not empty the analysis returns, and its
    top-5 list has [min 5 (number of rows)] entries, so at most 5, and is a
    subsequence of the names in row order. *)
Theorem analyze_data_top5 (now : PyTime.datetime) (df : Frame.dataframe) :
  df <> [] ->
  exists a, Tracker.analyze_data now df = Some a
    /\ length (Tracker.top_5_by_market_cap a) = Nat.min 5 (length df)
    /\ (length (Tracker.top_5_by_market_cap a) <= 5)%nat
    /\ sublist (Tracker.top_5_by_market_cap a) (map Frame.Name df).
Proof.
  intros Hne. unfold Tracker.analyze_data.
  destruct (nlargest1_some Frame.Change_24h_pct df Hne) as [hi ->].
  destruct (nsmallest1_some Frame.Change_24h_pct df Hne) as [lo ->].
  eexists. split; [reflexivity|]. simpl.
  rewrite length_map, length_take.
  split; [reflexivity|]. split; [lia|].
  apply sublist_map_take.
Qed.

Lemma analyze_data_top5_witness :
  exists a,
    Tracker.analyze_data (Sample.at_noon 10 0 1) Sample.seven_table = Some a
    /\ length (Tracker.top_5_by_market_cap a) = 5%nat
    /\ (length (Tracker.top_5_by_market_cap a) <= 5)%nat
    /\ sublist (Tracker.top_5_by_market_cap a)
         [Frame.Val "Bitcoin"; Frame.Val "Ethereum"; Frame.Val "Tether"; Frame.Val "BNB";
          Frame.Val "Solana"; Frame.Val "XRP"; Frame.Val "USDC"]
    /\ Tracker.top_5_by_market_cap a
       = [Frame.Val "Bitcoin"; Frame.Val "Ethereum"; Frame.Val "Tether"; Frame.Val "BNB";
          Frame.Val "Solana"].
Proof.
  destruct (analyze_data_top5 (Sample.at_noon 10 0 1) Sample.seven_table)
    as (a & Ha & Hlen & Hle & Hsub).
  - discriminate.
  - exists a. split; [exact Ha|]. split; [exact Hlen|]. split; [exact Hle|].
    split; [exact Hsub|]. injection Ha as <-. reflexivity.
Defined.

(** ** The paths through one iteration of the loop *)

Section Paths.

Import Frame Tracker.

Local Open Scope Z_scope.

Variable update_interval : Z.

(** A failed fetch: the counter goes up by one and the iteration ends there,
    by [break] at the threshold and by [continue] below it. *)
Lemma body_fetch_failed (e : cycle_env) (t : tracker) :
  fetch_failed e = true ->
  body update_interval e t =
    (inr (if max_errors <=? errors_count t + 1 then Break else Continue),
     mk_tracker (last_report_time t) (errors_count t + 1) (disk t) (log t ++ [EvFetch])).
Proof.
  unfold fetch_failed, body, call_fetch, bind, emit, get, set_errors_count, ret, leave.
  simpl. destruct (raised e AtFetch) as [[|]|]; try discriminate; simpl.
  - intros _. destruct (max_errors <=? errors_count t + 1); reflexivity.
  - destruct (fetch_top_50_data (responses e)) as [[|c data]|]; try discriminate;
      intros _; simpl; destruct (max_errors <=? errors_count t + 1); reflexivity.
Qed.

(** An interrupted fetch. *)
Lemma body_fetch_interrupted (e : cycle_env) (t : tracker) :
  raised e AtFetch = Some KeyboardInterrupt ->
  body update_interval e t = (inr (Raise KeyboardInterrupt), logged [EvFetch] t).
Proof.
  unfold body, call_fetch, bind, emit, leave. simpl. intros ->. reflexivity.
Qed.

(** The transform fails: nothing is stored or reported, no field changes,
    and the iteration goes to its sleep. *)
Lemma body_transform_failed (e : cycle_env) (t : tracker) (data : payload) :
  fetch_returns e data -> process_data data = None ->
  body update_interval e t = call_sleep e update_interval (logged [EvFetch] t).
Proof.
  intros (Hr & Hf & Hne) Hp.
  unfold body, call_fetch, bind, emit, ret. simpl. rewrite Hr, Hf.
  destruct data as [|c data]; [congruence|]. rewrite Hp. simpl.
  unfold logged. destruct (call_sleep e update_interval _) as [[[]|x] t']; reflexivity.
Qed.

(** [analyze_data] raises: the exception leaves the [try] block. *)
Lemma body_analyze_raised (e : cycle_env) (t : tracker) (data : payload)
    (df : dataframe) (k : exn) :
  fetch_returns e data -> process_data data = Some df ->
  raised e AtAnalyze = Some k ->
  body update_interval e t = (inr (Raise k), logged [EvFetch] t).
Proof.
  intros (Hr & Hf & Hne) Hp Ha.
  unfold body, call_fetch, call_analyze, bind, emit, ret, leave. simpl. rewrite Hr, Hf.
  destruct data as [|c data]; [congruence|]. rewrite Hp. simpl. rewrite Ha.
  reflexivity.
Qed.

Lemma body_analyze_failed (e : cycle_env) (t : tracker) (data : payload)
    (df : dataframe) :
  fetch_returns e data -> process_data data = Some df ->
  raised e AtAnalyze = None -> analyze_data (analysis_now e) df = None ->
  body update_interval e t = (inr (Raise Error), logged [EvFetch] t).
Proof.
  intros (Hr & Hf & Hne) Hp Ha Han.
  unfold body, call_fetch, call_analyze, bind, emit, ret, leave. simpl. rewrite Hr, Hf.
  destruct data as [|c data]; [congruence|]. rewrite Hp. simpl. rewrite Ha, Han.
  reflexivity.
Qed.

(** The store fails: the counter is neither reset nor incremented, no
    report is attempted, and the iteration goes to its sleep. *)
Lemma body_store_failed (e : cycle_env) (t : tracker) (data : payload)
    (df : dataframe) (a : analysis) (d' : files) :
  fetch_returns e data -> process_data data = Some df ->
  raised e AtAnalyze = None -> analyze_data (analysis_now e) df = Some a ->
  update_excel (excel_ok e) df a (disk t) = (false, d') ->
  body update_interval e t =
    call_sleep e update_interval
      (mk_tracker (last_report_time t) (errors_count t) d'
                  (log t ++ [EvFetch; EvStore false])).
Proof.
  intros (Hr & Hf & Hne) Hp Ha Han Hu.
  unfold body, call_fetch, call_analyze, call_update_excel, bind, emit, get, set_disk, ret.
  simpl. rewrite Hr, Hf.
  destruct data as [|c data]; [congruence|]. rewrite Hp. simpl. rewrite Ha, Han. simpl.
  rewrite Hu. simpl. rewrite <- app_assoc. simpl.
  destruct (call_sleep e update_interval _) as [[[]|x] t']; reflexivity.
Qed.

(** The store succeeds and no report is due: the counter is reset. *)
Lemma body_stored_not_due (e : cycle_env) (t : tracker) (data : payload)
    (df : dataframe) (a : analysis) (d' : files) :
  fetch_returns e data -> process_data data = Some df ->
  raised e AtAnalyze = None -> analyze_data (analysis_now e) df = Some a ->
  update_excel (excel_ok e) df a (disk t) = (true, d') ->
  report_due (last_report_time t) (now e) = false ->
  body update_interval e t =
    call_sleep e update_interval
      (mk_tracker (last_report_time t) 0 d' (log t ++ [EvFetch; EvStore true])).
Proof.
  intros (Hr & Hf & Hne) Hp Ha Han Hu Hd.
  unfold body, call_fetch, call_analyze, call_update_excel, bind, emit, get, set_disk,
    set_errors_count, ret.
  simpl. rewrite Hr, Hf.
  destruct data as [|c data]; [congruence|]. rewrite Hp. simpl. rewrite Ha, Han. simpl.
  rewrite Hu. simpl. rewrite Hd. simpl. rewrite <- app_assoc. simpl.
  destruct (call_sleep e update_interval _) as [[[]|x] t']; reflexivity.
Qed.

(** The store succeeds and a report is due: the counter is reset, the
    report is generated, and its instant is recorded when it succeeded. *)
Lemma body_stored_due (e : cycle_env) (t : tracker) (data : payload)
    (df : dataframe) (a : analysis) (d' d'' : files) (ok : bool) :
  fetch_returns e data -> process_data data = Some df ->
  raised e AtAnalyze = None -> analyze_data (analysis_now e) df = Some a ->
  update_excel (excel_ok e) df a (disk t) = (true, d') ->
  report_due (last_report_time t) (now e) = true ->
  Report.generate_report (report_env e) d' = (ok, d'') ->
  body update_interval e t =
    call_sleep e update_interval
      (mk_tracker (if ok then Some (now e) else last_report_time t) 0 d''
                  (log t ++ [EvFetch; EvStore true; EvReport ok])).
Proof.
  intros (Hr & Hf & Hne) Hp Ha Han Hu Hd Hg.
  unfold body, call_fetch, call_analyze, call_update_excel, call_generate_report,
    bind, emit, get, set_disk, set_errors_count, set_last_report_time, ret.
  simpl. rewrite Hr, Hf.
  destruct data as [|c data]; [congruence|]. rewrite Hp. simpl. rewrite Ha, Han. simpl.
  rewrite Hu. simpl. rewrite Hd. simpl. rewrite Hg. simpl.
  rewrite <- !app_assoc. simpl.
  destruct ok; simpl;
    destruct (call_sleep e update_interval _) as [[[]|x] t']; reflexivity.
Qed.

End Paths.

(** ** What every iteration keeps *)

Section Invariants.

Import Frame Tracker.

Local Open Scope Z_scope.

Variable update_interval : Z.

(** The sleep at the end of an iteration returns or raises. *)
Lemma call_sleep_cases (e : cycle_env) (t : tracker) :
  call_sleep e update_interval t = (inl tt, logged [EvSleep update_interval] t)
  \/ exists k, call_sleep e update_interval t = (inr (Raise k), t).
Proof.
  unfold call_sleep, emit, leave, logged.
  destruct (raised e AtSleep) as [k|]; [right; eauto | left; reflexivity].
Qed.

(** Every iteration takes one of these paths. *)
Lemma body_paths (e : cycle_env) (t : tracker) :
  fetch_failed e = true
  \/ raised e AtFetch = Some KeyboardInterrupt
  \/ (exists k, body update_interval e t = (inr (Raise k), logged [EvFetch] t))
  \/ body update_interval e t = call_sleep e update_interval (logged [EvFetch] t)
  \/ (exists d',
        body update_interval e t =
          call_sleep e update_interval
            (mk_tracker (last_report_time t) (errors_count t) d'
                        (log t ++ [EvFetch; EvStore false])))
  \/ (exists d',
        report_due (last_report_time t) (now e) = false
        /\ body update_interval e t =
             call_sleep e update_interval
               (mk_tracker (last_report_time t) 0 d' (log t ++ [EvFetch; EvStore true])))
  \/ (exists d'' (ok : bool),
        report_due (last_report_time t) (now e) = true
        /\ body update_interval e t =
             call_sleep e update_interval
               (mk_tracker (if ok then Some (now e) else last_report_time t) 0 d''
                           (log t ++ [EvFetch; EvStore true; EvReport ok]))).
Proof.
  destruct (fetch_failed e) eqn:Hff; [now left|right].
  unfold fetch_failed in Hff.
  destruct (raised e AtFetch) as [[|]|] eqn:Hr; [discriminate|now left|right].
  destruct (fetch_top_50_data (responses e)) as [[|c data]|] eqn:Hf; try discriminate.
  assert (Hret : fetch_returns e (c :: data)) by (split; [assumption|split; [assumption|discriminate]]).
  destruct (process_data (c :: data)) as [df|] eqn:Hp;
    [|right; left; eapply body_transform_failed; eassumption].
  destruct (raised e AtAnalyze) as [k|] eqn:Ha;
    [left; exists k; eapply body_analyze_raised; eassumption|].
  destruct (analyze_data (analysis_now e) df) as [a|] eqn:Han;
    [|left; exists Error; eapply body_analyze_failed; eassumption].
  right; right.
  destruct (update_excel (excel_ok e) df a (disk t)) as [[|] d'] eqn:Hu;
    [right|left; exists d'; eapply body_store_failed; eassumption].
  destruct (report_due (last_report_time t) (now e)) eqn:Hd.
  - right. destruct (Report.generate_report (report_env e) d') as [ok d''] eqn:Hg.
    exists d'', ok. split; [reflexivity|]. eapply body_stored_due; eassumption.
  - left. exists d'. split; [reflexivity|]. eapply body_stored_not_due; eassumption.
Qed.

(** The loop leaves by [break] only where the fetch failed, with the
    counter at the threshold. *)
Lemma body_break (e : cycle_env) (t t' : tracker) :
  body update_interval e t = (inr Break, t') ->
  fetch_failed e = true /\ max_errors <= errors_count t'.
Proof.
  destruct (body_paths e t)
    as [Hf|[Hi|[[k H]|[H|[[d' H]|[[d' [_ H]]|[d'' [ok [_ H]]]]]]]]]; rewrite ?H.
  - rewrite (body_fetch_failed update_interval e t Hf).
    destruct (max_errors <=? errors_count t + 1) eqn:Hm; [|discriminate].
    apply Z.leb_le in Hm. intros [= <-]. simpl. split; [assumption|lia].
  - rewrite (body_fetch_interrupted update_interval e t Hi). discriminate.
  - discriminate.
  - destruct (call_sleep_cases e (logged [EvFetch] t)) as [->|[k ->]]; discriminate.
  - match goal with |- call_sleep _ _ ?s = _ -> _ =>
      destruct (call_sleep_cases e s) as [->|[k ->]]; discriminate end.
  - match goal with |- call_sleep _ _ ?s = _ -> _ =>
      destruct (call_sleep_cases e s) as [->|[k ->]]; discriminate end.
  - match goal with |- call_sleep _ _ ?s = _ -> _ =>
      destruct (call_sleep_cases e s) as [->|[k ->]]; discriminate end.
Qed.

(** In no iteration the counter goes below zero. *)
Lemma body_errors_count_nonneg (e : cycle_env) (t : tracker) :
  0 <= errors_count t -> 0 <= errors_count (snd (body update_interval e t)).
Proof.
  intros H0.
  destruct (body_paths e t)
    as [Hf|[Hi|[[k H]|[H|[[d' H]|[[d' [_ H]]|[d'' [ok [_ H]]]]]]]]]; rewrite ?H.
  - rewrite (body_fetch_failed update_interval e t Hf). simpl. lia.
  - rewrite (body_fetch_interrupted update_interval e t Hi). simpl. lia.
  - simpl. lia.
  - destruct (call_sleep_cases e (logged [EvFetch] t)) as [->|[k ->]]; simpl; lia.
  - match goal with |- context [call_sleep _ _ ?s] =>
      destruct (call_sleep_cases e s) as [->|[k ->]]; simpl; lia end.
  - match goal with |- context [call_sleep _ _ ?s] =>
      destruct (call_sleep_cases e s) as [->|[k ->]]; simpl; lia end.
  - match goal with |- context [call_sleep _ _ ?s] =>
      destruct (call_sleep_cases e s) as [->|[k ->]]; simpl; lia end.
Qed.

(** The loop over two scripts in a row. *)
Lemma loop_app (es1 es2 : list cycle_env) (t : tracker) :
  loop update_interval (es1 ++ es2) t =
    match loop update_interval es1 t with
    | (Running, t1) => loop update_interval es2 t1
    | r => r
    end.
Proof.
  revert t. induction es1 as [|e es1 IH]; intros t; simpl.
  - reflexivity.
  - destruct (body update_interval e t) as [[[]|[| |[|]]] t1]; rewrite ?IH; try reflexivity.
Qed.

Lemma loop_errors_count_nonneg (es : list cycle_env) (t : tracker) :
  0 <= errors_count t -> 0 <= errors_count (snd (loop update_interval es t)).
Proof.
  revert t. induction es as [|e es IH]; intros t H0; simpl; [assumption|].
  pose proof (body_errors_count_nonneg e t H0) as H1.
  destruct (body update_interval e t) as [[[]|[| |[|]]] t1]; simpl in *;
    try assumption; apply IH; simpl; lia.
Qed.

End Invariants.

(** ** Consecutive fetch failures *)

Section Failures.

Import Frame Tracker.

Local Open Scope Z_scope.

Variable update_interval : Z.

Lemma fetches_snoc (l : list event) :
  fetches (l ++ [EvFetch]) = S (fetches l).
Proof.
  unfold fetches. rewrite List.filter_app, length_app. simpl. lia.
Qed.

(** Fetch failures in a row reach the threshold: the loop stops within
    them, and whatever the script holds after them is never used. *)
Lemma loop_fetch_failures (fails : list cycle_env) (t : tracker) :
  fails <> [] ->
  forallb fetch_failed fails = true ->
  max_errors <= errors_count t + Z.of_nat (length fails) ->
  exists t',
    (forall rest, loop update_interval (fails ++ rest) t = (Stopped, t'))
    /\ (fetches (log t) < fetches (log t') <= fetches (log t) + length fails)%nat.
Proof.
  revert t. induction fails as [|e fails IH]; intros t Hne Hall Hmax; [congruence|].
  simpl in Hall. apply andb_prop in Hall as [He Hall].
  simpl. rewrite (body_fetch_failed update_interval e t He).
  destruct (max_errors <=? errors_count t + 1) eqn:Hm.
  - eexists. split; [intros rest; reflexivity|]. simpl. rewrite fetches_snoc. lia.
  - apply Z.leb_gt in Hm.
    destruct fails as [|e' fails]; [simpl in Hmax; lia|].
    edestruct (IH (mk_tracker (last_report_time t) (errors_count t + 1) (disk t)
                              (log t ++ [EvFetch]))) as (t' & Hrun & Hcount).
    + discriminate.
    + assumption.
    + simpl errors_count. simpl length in *. lia.
    + exists t'. split; [exact Hrun|].
      simpl log in Hcount. rewrite fetches_snoc in Hcount. simpl length in *. lia.
Qed.

End Failures.

(** C1. In every run, five fetch failures in a row stop the scheduler: if
    the loop is still running after the iterations [pre], then after five
    more iterations whose fetch fails it has stopped, and no iteration that
    would follow is run: the final state, with at most five more calls of
    the fetch, is the same whatever follows. *)
Theorem five_fetch_failures_stop (update_interval : Z) (b : Tracker.boot_env)
    (d : Frame.files) (pre fails : list Tracker.cycle_env) (t : Tracker.tracker) :
  Tracker.run update_interval b pre d = (Tracker.Running, t) ->
  length fails = 5%nat ->
  forallb Tracker.fetch_failed fails = true ->
  exists t',
    (forall rest,
        Tracker.run update_interval b (pre ++ fails ++ rest) d = (Tracker.Stopped, t'))
    /\ (Tracker.fetches (Tracker.log t) < Tracker.fetches (Tracker.log t')
        <= Tracker.fetches (Tracker.log t) + 5)%nat.
Proof.
  unfold Tracker.run. intros Hpre Hlen Hall.
  destruct (Tracker.startup b d) as [t0|] eqn:Hs; [|discriminate].
  assert (H0 : (0 <= Tracker.errors_count t)%Z).
  { pose proof (loop_errors_count_nonneg update_interval pre t0) as H.
    rewrite Hpre in H. apply H.
    unfold Tracker.startup in Hs. destruct (Tracker.boot_dirs_ok b); [|discriminate].
    destruct (Report.generate_report _ _). injection Hs as <-. simpl. lia. }
  destruct (loop_fetch_failures update_interval fails t) as (t' & Hrun & Hcount).
  - destruct fails; [discriminate|discriminate].
  - assumption.
  - rewrite Hlen. unfold Tracker.max_errors. lia.
  - exists t'. split.
    + intros rest. rewrite loop_app, Hpre. apply Hrun.
    + rewrite Hlen in Hcount. exact Hcount.
Qed.

Lemma five_fetch_failures_stop_witness :
  exists t',
    (forall rest,
        Tracker.run 300 (Sample.boot (Sample.at_noon 10 0 0))
          ([Sample.good (Sample.at_noon 10 0 1)]
           ++ repeat (Sample.offline (Sample.at_noon 10 5 1)) 5 ++ rest)
          Sample.fresh = (Tracker.Stopped, t'))
    /\ (Tracker.fetches
          (Tracker.log (snd (Tracker.run 300 (Sample.boot (Sample.at_noon 10 0 0))
                               [Sample.good (Sample.at_noon 10 0 1)] Sample.fresh)))
        < Tracker.fetches (Tracker.log t')
        <= Tracker.fetches
             (Tracker.log (snd (Tracker.run 300 (Sample.boot (Sample.at_noon 10 0 0))
                                  [Sample.good (Sample.at_noon 10 0 1)] Sample.fresh)))
           + 5)%nat.
Proof.
  apply (five_fetch_failures_stop 300 (Sample.boot (Sample.at_noon 10 0 0)) Sample.fresh
           [Sample.good (Sample.at_noon 10 0 1)]
           (repeat (Sample.offline (Sample.at_noon 10 5 1)) 5)).
  - reflexivity.
  - reflexivity.
  - reflexivity.
Defined.

(** ** Failures that are not fetch failures *)

Section OtherFailures.

Import Frame Tracker.

Local Open Scope Z_scope.

Variable update_interval : Z.

Lemma transform_failed_returns (e : cycle_env) :
  transform_failed e = true ->
  exists data, fetch_returns e data /\ process_data data = None.
Proof.
  unfold transform_failed, fetch_returns.
  destruct (raised e AtFetch); [discriminate|].
  destruct (fetch_top_50_data (responses e)) as [[|c data]|]; try discriminate.
  destruct (process_data (c :: data)) eqn:Hp; [discriminate|].
  intros _. exists (c :: data). repeat split; [discriminate|assumption].
Qed.

Lemma analyze_raises_returns (e : cycle_env) :
  analyze_raises e = true ->
  exists data df, fetch_returns e data /\ process_data data = Some df
                  /\ raised e AtAnalyze = Some Error.
Proof.
  unfold analyze_raises, fetch_returns.
  destruct (raised e AtFetch); [discriminate|].
  destruct (fetch_top_50_data (responses e)) as [[|c data]|]; try discriminate.
  destruct (process_data (c :: data)) as [df|] eqn:Hp; [|discriminate].
  destruct (raised e AtAnalyze) as [[|]|]; try discriminate.
  intros _. exists (c :: data), df. repeat split; [discriminate|assumption].
Qed.

(** Iterations in which [analyze_data] raises: each adds one to the
    counter and the loop goes on, wherever the counter stands. *)
Lemma loop_analyze_raises (es : list cycle_env) (t : tracker) :
  forallb analyze_raises es = true ->
  loop update_interval es t =
    (Running,
     mk_tracker (last_report_time t) (errors_count t + Z.of_nat (length es)) (disk t)
                (log t ++ repeat EvFetch (length es))).
Proof.
  revert t. induction es as [|e es IH]; intros t Hall.
  - simpl. rewrite Z.add_0_r, app_nil_r. destruct t; reflexivity.
  - simpl in Hall. apply andb_prop in Hall as [He Hall].
    destruct (analyze_raises_returns e He) as (data & df & Hr & Hp & Ha).
    simpl loop. rewrite (body_analyze_raised update_interval e t data df Error Hr Hp Ha).
    rewrite IH by assumption. simpl. f_equal. f_equal.
    + lia.
    + rewrite <- app_assoc. reflexivity.
Qed.


End OtherFailures.

(** C10. An exception that leaves the body of the loop adds one to the
    counter and the loop goes on without looking at the threshold; the loop
    leaves by [break] only in an iteration whose fetch failed. So
    iterations in which [analyze_data] raises, however many, leave the loop
    running with the counter raised by their number, past 5 too. *)
Theorem exceptions_count_without_stopping (update_interval : Z) :
  (forall e es t t',
      Tracker.body update_interval e t = (inr (Tracker.Raise Tracker.Error), t') ->
      Tracker.loop update_interval (e :: es) t =
        Tracker.loop update_interval es
          (Tracker.mk_tracker (Tracker.last_report_time t') (Tracker.errors_count t' + 1)
                              (Tracker.disk t') (Tracker.log t')))
  /\ (forall e t t',
      Tracker.body update_interval e t = (inr Tracker.Break, t') ->
      Tracker.fetch_failed e = true)
  /\ (forall es t,
      forallb Tracker.analyze_raises es = true ->
      fst (Tracker.loop update_interval es t) = Tracker.Running
      /\ Tracker.errors_count (snd (Tracker.loop update_interval es t))
         = (Tracker.errors_count t + Z.of_nat (length es))%Z)
  /\ (let r := Tracker.run 300 (Sample.boot (Sample.at_noon 10 0 0))
                 (repeat (Sample.faulty (Sample.at_noon 10 0 1)) 6) Sample.fresh in
      fst r = Tracker.Running /\ Tracker.errors_count (snd r) = 6%Z).
Proof.
  split; [|split; [|split]].
  - intros e es t t' H. simpl. rewrite H. reflexivity.
  - intros e t t' H. apply (body_break update_interval e t t' H).
  - intros es t H. rewrite (loop_analyze_raises update_interval es t H). split; reflexivity.
  - split; reflexivity.
Qed.

Lemma exceptions_count_without_stopping_witness :
  fst (Tracker.loop 300 (repeat (Sample.faulty (Sample.at_noon 10 0 1)) 7)
         (Tracker.mk_tracker None 0 Sample.fresh [])) = Tracker.Running
  /\ Tracker.errors_count
       (snd (Tracker.loop 300 (repeat (Sample.faulty (Sample.at_noon 10 0 1)) 7)
               (Tracker.mk_tracker None 0 Sample.fresh []))) = 7%Z.
Proof.
  apply (proj1 (proj2 (proj2 (exceptions_count_without_stopping 300)))
           (repeat (Sample.faulty (Sample.at_noon 10 0 1)) 7)
           (Tracker.mk_tracker None 0 Sample.fresh [])).
  reflexivity.
Defined.

(** C3 (the code departs from it). After a fetch failure below the
    threshold the loop goes to its next iteration by [continue], which
    skips the sleep at the end of the body: the log of an iteration whose
    fetch fails gains the fetch and nothing else, and in the run below the
    second fetch follows the first with no sleep in between. *)
Theorem fetch_failure_retries_at_once :
  (forall update_interval e t,
      Tracker.fetch_failed e = true ->
      Tracker.log (snd (Tracker.body update_interval e t))
      = (Tracker.log t ++ [Tracker.EvFetch])%list)
  /\ Tracker.log
       (snd (Tracker.run 300 (Sample.boot (Sample.at_noon 10 0 0))
               [Sample.offline (Sample.at_noon 10 0 1); Sample.good (Sample.at_noon 10 0 7)]
               Sample.fresh))
     = [Tracker.EvReport false; Tracker.EvFetch;
        Tracker.EvFetch; Tracker.EvStore true; Tracker.EvReport true;
        Tracker.EvSleep 300].
Proof.
  split.
  - intros ui e t H. rewrite (body_fetch_failed ui e t H). reflexivity.
  - reflexivity.
Qed.




(** C5 (as the code has it). A successful fetch alone does not reset the
    counter: after a failed fetch, an iteration whose fetch succeeds and
    whose store fails leaves the counter at 1. *)
Lemma fetch_success_resets_counter_counterexample :
  Tracker.fetch_failed (Sample.readonly (Sample.at_noon 10 1 1)) = false
  /\ Tracker.errors_count
       (snd (Tracker.run 300 (Sample.boot (Sample.at_noon 10 0 0))
               [Sample.offline (Sample.at_noon 10 0 1);
                Sample.readonly (Sample.at_noon 10 1 1)] Sample.fresh)) <> 0%Z.
Proof.
  split; vm_compute; [reflexivity|discriminate].
Qed.

(** C5, amended. In an iteration in which the fetch, the transform and the
    analysis succeed, the counter is reset to 0 when the store succeeds and
    is left as it was, not incremented, when the store fails. *)
Theorem counter_reset_when_stored (update_interval : Z) (e : Tracker.cycle_env)
    (t : Tracker.tracker) (data : Tracker.payload) (df : Frame.dataframe)
    (a : Tracker.analysis) (ok : bool) (d' : Frame.files) :
  Tracker.fetch_returns e data ->
  Tracker.process_data data = Some df ->
  Tracker.raised e Tracker.AtAnalyze = None ->
  Tracker.analyze_data (Tracker.analysis_now e) df = Some a ->
  Tracker.update_excel (Tracker.excel_ok e) df a (Tracker.disk t) = (ok, d') ->
  Tracker.errors_count (snd (Tracker.body update_interval e t))
  = if ok then 0%Z else Tracker.errors_count t.
Proof.
  intros Hr Hp Ha Han Hu. destruct ok.
  - destruct (Tracker.report_due (Tracker.last_report_time t) (Tracker.now e)) eqn:Hd.
    + destruct (Report.generate_report (Tracker.report_env e) d') as [ok d''] eqn:Hg.
      rewrite (body_stored_due update_interval e t data df a d' d'' ok Hr Hp Ha Han Hu Hd Hg).
      match goal with |- context [Tracker.call_sleep _ _ ?s] =>
        destruct (call_sleep_cases update_interval e s) as [->|[k ->]]; reflexivity end.
    + rewrite (body_stored_not_due update_interval e t data df a d' Hr Hp Ha Han Hu Hd).
      match goal with |- context [Tracker.call_sleep _ _ ?s] =>
        destruct (call_sleep_cases update_interval e s) as [->|[k ->]]; reflexivity end.
  - rewrite (body_store_failed update_interval e t data df a d' Hr Hp Ha Han Hu).
    match goal with |- context [Tracker.call_sleep _ _ ?s] =>
      destruct (call_sleep_cases update_interval e s) as [->|[k ->]]; reflexivity end.
Qed.

Lemma counter_reset_when_stored_witness :
  Tracker.errors_count
    (snd (Tracker.body 300 (Sample.good (Sample.at_noon 10 0 1))
            (Tracker.mk_tracker None 3 Sample.fresh []))) = 0%Z
  /\ Tracker.errors_count
       (snd (Tracker.body 300 (Sample.readonly (Sample.at_noon 10 0 1))
               (Tracker.mk_tracker None 3 Sample.fresh []))) = 3%Z.
Proof.
  split.
  - eapply (counter_reset_when_stored 300 (Sample.good (Sample.at_noon 10 0 1))
              (Tracker.mk_tracker None 3 Sample.fresh []) _ _ _ true).
    + split; [reflexivity|split; [reflexivity|discriminate]].
    + reflexivity.
    + reflexivity.
    + reflexivity.
    + reflexivity.
  - eapply (counter_reset_when_stored 300 (Sample.readonly (Sample.at_noon 10 0 1))
              (Tracker.mk_tracker None 3 Sample.fresh []) _ _ _ false).
    + split; [reflexivity|split; [reflexivity|discriminate]].
    + reflexivity.
    + reflexivity.
    + reflexivity.
    + reflexivity.
Defined.

(** ** When a report is generated *)

Section Reports.

Import Frame Tracker.

Local Open Scope Z_scope.

Lemma reports_app (l1 l2 : list event) :
  reports (l1 ++ l2) = (reports l1 + reports l2)%nat.
Proof.
  unfold reports. rewrite List.filter_app, length_app. reflexivity.
Qed.

(** Once due, a report stays due as the clock goes on. *)
Lemma report_due_later (lrt : option PyTime.datetime) (c c' : PyTime.datetime) :
  report_due lrt c = true ->
  PyTime.to_microseconds c <= PyTime.to_microseconds c' ->
  report_due lrt c' = true.
Proof.
  destruct lrt as [l|]; simpl; [|reflexivity].
  unfold PyTime.sub. rewrite !Z.leb_le. lia.
Qed.

(** Writing an entry leaves the entries of every other name as they
    were. *)
Lemma write_entry_other (n n0 : string) (p p0 : pdf) (dir : list (string * pdf)) :
  n <> n0 ->
  In (n, p) (Report.write_entry n0 p0 dir) <-> In (n, p) dir.
Proof.
  intros Hn. induction dir as [|[n' p'] dir IH]; simpl.
  - split; [intros [[= E _]|[]]; congruence|tauto].
  - destruct (String.eqb n0 n') eqn:E; simpl.
    + apply String.eqb_eq in E. subst n'.
      split; (intros [[= E _]|H]; [congruence|right; exact H]).
    + rewrite IH. tauto.
Qed.

(** What a failed [generate_report] leaves. The workbook is as it was.
    Nothing at all is changed when the directories or the workbook are
    what failed. When the latest report is what failed the archive is as
    it was; otherwise the latest report has been rewritten. The archive
    files of a name other than that of the new copy are as they were. *)
Lemma generate_report_failed (e : Report.env) (d d' : files) :
  Report.generate_report e d = (false, d') ->
  excel_file d' = excel_file d
  /\ ((Report.dirs_ok e = false \/ Report.load_data e d = None) -> d' = d)
  /\ (Report.latest_ok e = false -> archive_dir d' = archive_dir d)
  /\ (forall wb,
        Report.dirs_ok e = true -> Report.load_data e d = Some wb ->
        Report.latest_ok e = true ->
        latest_report d'
        = Some (Report.create_pdf_report (Report.latest_now e) (live_data wb)))
  /\ (forall n p,
        n <> "crypto_analysis_" ++ PyTime.strftime_Ymd_HMS (Report.stamp e) ++ ".pdf" ->
        In (n, p) (archive_dir d') <-> In (n, p) (archive_dir d)).
Proof.
  unfold Report.generate_report.
  destruct (Report.dirs_ok e); cbn [negb];
    [|intros [= <-]; repeat split; auto; try tauto; intros; discriminate].
  destruct (Report.load_data e d) as [wb|];
    [|intros [= <-]; repeat split; auto; try tauto; intros; discriminate].
  destruct (Report.latest_ok e); cbn [negb].
  - destruct (Report.archive_ok e); cbn [negb]; [discriminate|].
    intros [= <-]. cbn [excel_file latest_report archive_dir].
    split; [reflexivity|]. split; [intros [H|H]; discriminate|].
    split; [discriminate|]. split; [intros wb' _ [= <-] _; reflexivity|].
    intros n p Hn. destruct (Report.archive_left e) as [q|]; [|tauto].
    apply write_entry_other. exact Hn.
  - intros [= <-]. cbn [excel_file latest_report archive_dir].
    split; [reflexivity|]. split; [intros [H|H]; discriminate|].
    split; [reflexivity|]. split; [discriminate|]. tauto.
Qed.

End Reports.

(** C2 (as the code has it). The first successful cycle does not always
    generate a report: when the bootstrap report succeeded one second
    before it, the cycle stores the data and generates nothing, the only
    report of the run being that of the bootstrap. *)
Lemma first_cycle_report_counterexample :
  Tracker.log
    (snd (Tracker.run 300 (Sample.boot (Sample.at_noon 10 0 0))
            [Sample.good (Sample.at_noon 10 0 1)] Sample.stocked))
  = [Tracker.EvReport true; Tracker.EvFetch; Tracker.EvStore true; Tracker.EvSleep 300].
Proof.
  vm_compute. reflexivity.
Qed.

(** C2, amended. A cycle whose fetch, transform and store succeed
    generates a report exactly when it is due: when no report was generated
    with success so far (at the first cycle, when the bootstrap report
    failed), or when the time since the last one (the bootstrap report
    included) is at least the report interval of 5 minutes. One minute
    after a report no other one is generated. *)
Theorem report_generated_when_due (update_interval : Z) (e : Tracker.cycle_env)
    (t : Tracker.tracker) (data : Tracker.payload) (df : Frame.dataframe)
    (a : Tracker.analysis) (d' : Frame.files) :
  Tracker.fetch_returns e data ->
  Tracker.process_data data = Some df ->
  Tracker.raised e Tracker.AtAnalyze = None ->
  Tracker.analyze_data (Tracker.analysis_now e) df = Some a ->
  Tracker.update_excel (Tracker.excel_ok e) df a (Tracker.disk t) = (true, d') ->
  (Tracker.reports (Tracker.log (snd (Tracker.body update_interval e t)))
   = Tracker.reports (Tracker.log t)
     + (if Tracker.report_due (Tracker.last_report_time t) (Tracker.now e) then 1 else 0))%nat
  /\ (Tracker.last_report_time t = None ->
      Tracker.report_due (Tracker.last_report_time t) (Tracker.now e) = true)
  /\ (forall l, Tracker.last_report_time t = Some l ->
      (Tracker.report_due (Tracker.last_report_time t) (Tracker.now e) = true
       <-> (PyTime.minutes 5 <= PyTime.sub (Tracker.now e) l)%Z))
  /\ (forall l, Tracker.last_report_time t = Some l ->
      PyTime.sub (Tracker.now e) l = PyTime.minutes 1 ->
      Tracker.report_due (Tracker.last_report_time t) (Tracker.now e) = false).
Proof.
  intros Hr Hp Ha Han Hu. split; [|split; [|split]].
  - destruct (Tracker.report_due (Tracker.last_report_time t) (Tracker.now e)) eqn:Hd.
    + destruct (Report.generate_report (Tracker.report_env e) d') as [ok d''] eqn:Hg.
      rewrite (body_stored_due update_interval e t data df a d' d'' ok Hr Hp Ha Han Hu Hd Hg).
      match goal with |- context [Tracker.call_sleep _ _ ?s] =>
        destruct (call_sleep_cases update_interval e s) as [->|[k ->]] end;
        simpl; unfold Tracker.logged; simpl; rewrite ?reports_app;
        unfold Tracker.reports; simpl; lia.
    + rewrite (body_stored_not_due update_interval e t data df a d' Hr Hp Ha Han Hu Hd).
      match goal with |- context [Tracker.call_sleep _ _ ?s] =>
        destruct (call_sleep_cases update_interval e s) as [->|[k ->]] end;
        simpl; unfold Tracker.logged; simpl; rewrite ?reports_app;
        unfold Tracker.reports; simpl; lia.
  - intros ->. reflexivity.
  - intros l ->. simpl. unfold Tracker.report_interval. apply Z.leb_le.
  - intros l -> Hm. simpl. rewrite Hm. reflexivity.
Qed.

Lemma report_generated_when_due_witness :
  (Tracker.reports
     (Tracker.log (snd (Tracker.body 300 (Sample.good (Sample.at_noon 10 1 1))
                          (Tracker.mk_tracker (Some (Sample.at_noon 10 0 1)) 0
                                              Sample.stocked []))))
   = 0 + (if Tracker.report_due (Some (Sample.at_noon 10 0 1)) (Sample.at_noon 10 1 1)
          then 1 else 0))%nat
  /\ Tracker.report_due (Some (Sample.at_noon 10 0 1)) (Sample.at_noon 10 1 1) = false.
Proof.
  edestruct (report_generated_when_due 300 (Sample.good (Sample.at_noon 10 1 1))
               (Tracker.mk_tracker (Some (Sample.at_noon 10 0 1)) 0 Sample.stocked []))
    as (H1 & H2 & H3 & H4).
  - split; [reflexivity|split; [reflexivity|discriminate]].
  - reflexivity.
  - reflexivity.
  - reflexivity.
  - reflexivity.
  - split; [exact H1|exact (H4 (Sample.at_noon 10 0 1) eq_refl eq_refl)].
Defined.

(** C7 (as the code has it). A failed report generation can change the
    latest report: when the archive copy cannot be written,
    [generate_report] returns [False] after it has rewritten
    [latest_report.pdf]. *)
Lemma failed_report_rewrites_latest_counterexample :
  fst (Report.generate_report (Sample.archive_full (Sample.at_noon 10 0 0)) Sample.stocked)
  = false
  /\ Frame.latest_report
       (snd (Report.generate_report (Sample.archive_full (Sample.at_noon 10 0 0))
               Sample.stocked))
     <> Frame.latest_report Sample.stocked.
Proof.
  split; vm_compute; [reflexivity|discriminate].
Qed.

(** C7, amended. Whenever report generation fails the workbook is left
    as it was and, in the loop, the recorded last report time is unchanged,
    so the report is still due at every later instant and the next cycle
    tries again. The earlier reports are all left as they were when the
    failure comes before the documents are written (the directories cannot
    be made, the workbook does not load). A failure while the latest
    report is written leaves the archive as it was. A failure while the
    archive copy is written comes after the latest report has been
    rewritten. In every case the archive files of a name other than that of
    the new copy are as they were. *)
Theorem failed_report_keeps_archive_and_time (update_interval : Z) :
  (forall e d d',
      Report.generate_report e d = (false, d') ->
      Frame.excel_file d' = Frame.excel_file d
      /\ ((Report.dirs_ok e = false \/ Report.load_data e d = None) -> d' = d)
      /\ (Report.latest_ok e = false -> Frame.archive_dir d' = Frame.archive_dir d)
      /\ (forall wb,
            Report.dirs_ok e = true -> Report.load_data e d = Some wb ->
            Report.latest_ok e = true ->
            Frame.latest_report d'
            = Some (Report.create_pdf_report (Report.latest_now e) (Frame.live_data wb)))
      /\ (forall n p,
            n <> "crypto_analysis_" ++ PyTime.strftime_Ymd_HMS (Report.stamp e) ++ ".pdf" ->
            In (n, p) (Frame.archive_dir d') <-> In (n, p) (Frame.archive_dir d)))
  /\ (forall e t data df a d' d'',
      Tracker.fetch_returns e data ->
      Tracker.process_data data = Some df ->
      Tracker.raised e Tracker.AtAnalyze = None ->
      Tracker.analyze_data (Tracker.analysis_now e) df = Some a ->
      Tracker.update_excel (Tracker.excel_ok e) df a (Tracker.disk t) = (true, d') ->
      Tracker.report_due (Tracker.last_report_time t) (Tracker.now e) = true ->
      Report.generate_report (Tracker.report_env e) d' = (false, d'') ->
      Tracker.last_report_time (snd (Tracker.body update_interval e t))
      = Tracker.last_report_time t
      /\ Frame.excel_file (Tracker.disk (snd (Tracker.body update_interval e t)))
         = Frame.excel_file d'
      /\ forall later,
          (PyTime.to_microseconds (Tracker.now e) <= PyTime.to_microseconds later)%Z ->
          Tracker.report_due
            (Tracker.last_report_time (snd (Tracker.body update_interval e t))) later
          = true).
Proof.
  split.
  - intros e d d' H. exact (generate_report_failed e d d' H).
  - intros e t data df a d' d'' Hr Hp Ha Han Hu Hd Hg.
    destruct (generate_report_failed _ _ _ Hg) as (Hx & _).
    rewrite (body_stored_due update_interval e t data df a d' d'' false Hr Hp Ha Han Hu Hd Hg).
    match goal with |- context [Tracker.call_sleep _ _ ?s] =>
      destruct (call_sleep_cases update_interval e s) as [->|[k ->]] end;
      simpl; (split; [reflexivity|]); (split; [exact Hx|]);
      intros later Hl; exact (report_due_later _ _ _ Hd Hl).
Qed.

Lemma failed_report_keeps_archive_and_time_witness :
  (Frame.archive_dir
     (snd (Report.generate_report (Sample.latest_torn (Sample.at_noon 10 0 0))
             Sample.stocked))
   = Frame.archive_dir Sample.stocked)
  /\ (Frame.latest_report
       (snd (Report.generate_report (Sample.archive_torn (Sample.at_noon 10 0 0))
               Sample.stocked))
     = Some (Report.create_pdf_report (Sample.at_noon 10 0 0) Sample.old_table))
  /\ (In ("crypto_analysis_20240309_120000.pdf", Sample.old_pdf)
         (Frame.archive_dir
            (snd (Report.generate_report (Sample.archive_torn (Sample.at_noon 10 0 0))
                    Sample.stocked))))
  /\ Tracker.last_report_time
       (snd (Tracker.body 300 (Sample.unarchived (Sample.at_noon 10 0 1))
               (Tracker.mk_tracker None 0 Sample.stocked []))) = None
  /\ Tracker.report_due
       (Tracker.last_report_time
          (snd (Tracker.body 300 (Sample.unarchived (Sample.at_noon 10 0 1))
                  (Tracker.mk_tracker None 0 Sample.stocked []))))
       (Sample.at_noon 10 5 1) = true.
Proof.
  split; [|split; [|split]].
  - destruct (proj1 (failed_report_keeps_archive_and_time 300)
                (Sample.latest_torn (Sample.at_noon 10 0 0)) Sample.stocked _ eq_refl)
      as (_ & _ & H & _).
    exact (H eq_refl).
  - destruct (proj1 (failed_report_keeps_archive_and_time 300)
                (Sample.archive_torn (Sample.at_noon 10 0 0)) Sample.stocked _ eq_refl)
      as (_ & _ & _ & H & _).
    exact (H _ eq_refl eq_refl eq_refl).
  - destruct (proj1 (failed_report_keeps_archive_and_time 300)
                (Sample.archive_torn (Sample.at_noon 10 0 0)) Sample.stocked _ eq_refl)
      as (_ & _ & _ & _ & H).
    apply H; [vm_compute; discriminate|left; reflexivity].
  - edestruct (proj2 (failed_report_keeps_archive_and_time 300)
                 (Sample.unarchived (Sample.at_noon 10 0 1))
                 (Tracker.mk_tracker None 0 Sample.stocked []))
      as (H1 & H2 & H3).
    + split; [reflexivity|split; [reflexivity|discriminate]].
    + reflexivity.
    + reflexivity.
    + reflexivity.
    + reflexivity.
    + reflexivity.
    + reflexivity.
    + split; [exact H1|]. apply H3. vm_compute. discriminate.
Defined.

(** ** The cleanup of the archive *)

Section Cleanup.

Import Frame.

Local Open Scope Z_scope.

Variable current_time : PyTime.datetime.

(** Without a stray name the loop runs to its end and removes the expired
    reports, all of them and nothing else. *)
Lemma cleanup_loop_complete (dir : list (string * pdf)) :
  forallb (fun x => negb (Report.stray (fst x))) dir = true ->
  Report.cleanup_loop current_time dir
  = (List.filter (fun x => negb (Report.expired current_time (fst x))) dir, true).
Proof.
  induction dir as [|[n p] dir IH]; simpl; [reflexivity|].
  intros H. apply andb_prop in H as [Hn H]. rewrite (IH H).
  unfold Report.stray, Report.expired in *. simpl in *.
  destruct (Report.glob_match n); simpl in *; [|reflexivity].
  destruct (PyTime.strptime_Ymd_HMS (Report.timestamp_str n)); [|discriminate].
  destruct (PyTime.days 7 <? PyTime.sub current_time d); reflexivity.
Qed.

(** At a stray name the loop ends: that file and all that follow it in the
    scan stay, expired or not. *)
Lemma cleanup_loop_stray (n : string) (p : pdf) (rest : list (string * pdf)) :
  Report.stray n = true ->
  Report.cleanup_loop current_time ((n, p) :: rest) = ((n, p) :: rest, false).
Proof.
  unfold Report.stray. simpl.
  destruct (Report.glob_match n); [|discriminate].
  destruct (PyTime.strptime_Ymd_HMS (Report.timestamp_str n)); [discriminate|].
  reflexivity.
Qed.

(** In every case a file that is not expired stays: one of seven days or
    less, one with a stray name, one the glob does not yield. *)
Lemma cleanup_loop_keeps (dir : list (string * pdf)) (x : string * pdf) :
  In x dir -> Report.expired current_time (fst x) = false ->
  In x (fst (Report.cleanup_loop current_time dir)).
Proof.
  induction dir as [|[n p] dir IH]; simpl; [tauto|].
  intros Hin Hx.
  destruct (Report.cleanup_loop current_time dir) as [rest' done] eqn:Hc. simpl in IH.
  destruct (Report.glob_match n) eqn:Hg.
  - destruct (PyTime.strptime_Ymd_HMS (Report.timestamp_str n)) as [rt|] eqn:Hs.
    + destruct (PyTime.days 7 <? PyTime.sub current_time rt) eqn:Hold; simpl.
      * destruct Hin as [<-|Hin]; [|auto].
        unfold Report.expired in Hx. simpl in Hx. rewrite Hg, Hs, Hold in Hx. discriminate.
      * destruct Hin as [<-|Hin]; [left; reflexivity|right; auto].
    + simpl. exact Hin.
  - simpl. destruct Hin as [<-|Hin]; [left; reflexivity|right; auto].
Qed.

End Cleanup.

(** C6 (the code departs from it). The handler of [_cleanup_old_reports]
    is outside its loop, so a name without a timestamp ends the cleanup:
    when the scan meets such a file first, the report of eight days ago
    that follows it is not removed; when the scan meets it last, that
    report is removed and the one of three days ago is kept. *)
Theorem cleanup_stops_at_stray_name :
  map fst (Frame.archive_dir
             (Report._cleanup_old_reports (Sample.at_noon 10 0 0)
                (Frame.mk_files None None Sample.archive_stray_first)))
  = ["crypto_analysis_final_copy.pdf";
     "crypto_analysis_20240302_120000.pdf";
     "crypto_analysis_20240307_120000.pdf"]
  /\ map fst (Frame.archive_dir
                (Report._cleanup_old_reports (Sample.at_noon 10 0 0)
                   (Frame.mk_files None None Sample.archive_stray_last)))
     = ["crypto_analysis_20240307_120000.pdf";
        "crypto_analysis_final_copy.pdf"]
  /\ Report.expired (Sample.at_noon 10 0 0) "crypto_analysis_20240302_120000.pdf" = true
  /\ Report.expired (Sample.at_noon 10 0 0) "crypto_analysis_20240307_120000.pdf" = false
  /\ Report.stray "crypto_analysis_final_copy.pdf" = true.
Proof.
  repeat split; vm_compute; reflexivity.
Qed.

(** ** Archive names and their timestamps *)

Section Names.

Lemma string_length_app (a b : string) :
  String.length (a ++ b) = (String.length a + String.length b)%nat.
Proof. induction a as [|c a IH]; simpl; congruence. Qed.

Lemma substring_app (a b : string) :
  String.substring 0 (String.length a) (a ++ b) = a.
Proof. induction a as [|c a IH]; simpl; [destruct b; reflexivity|congruence]. Qed.

Lemma prefix_app (a b : string) : String.prefix a (a ++ b) = true.
Proof.
  induction a as [|c a IH]; simpl; [destruct b; reflexivity|].
  destruct (Ascii.ascii_dec c c); [exact IH|congruence].
Qed.

(** [split] never returns an empty list. *)
Lemma split_chars_cons (sep : ascii) (l : list ascii) :
  exists h t, PyStr.split_chars sep l = h :: t.
Proof.
  destruct l as [|c l]; simpl; [eauto|].
  destruct (Ascii.eqb c sep); [eauto|].
  destruct (PyStr.split_chars sep l); eauto.
Qed.

Lemma join_cons (sep p : string) (h : string) (t : list string) :
  PyStr.join sep (p :: h :: t) = p ++ sep ++ PyStr.join sep (h :: t).
Proof. reflexivity. Qed.

Lemma join_split_chars (sep : ascii) (l : list ascii) :
  PyStr.join (String sep "") (map PyStr.of_chars (PyStr.split_chars sep l))
  = PyStr.of_chars l.
Proof.
  induction l as [|c l IH]; simpl; [reflexivity|].
  destruct (split_chars_cons sep l) as (h & t & Hs). rewrite Hs in *.
  destruct (Ascii.eqb c sep) eqn:E.
  - apply Ascii.eqb_eq in E. subst c.
    cbn [map]. rewrite join_cons. cbn [map] in IH. rewrite IH. reflexivity.
  - cbn [map] in *. destruct t as [|h' t].
    + simpl in *. congruence.
    + cbn [map] in *. rewrite join_cons in *. simpl. rewrite <- IH. reflexivity.
Qed.

(** A piece without the separator, then the separator: the piece is the
    first element of the split. *)
Lemma split_chars_piece (sep : ascii) (a b : list ascii) :
  forallb (fun c => negb (Ascii.eqb c sep)) a = true ->
  PyStr.split_chars sep (a ++ sep :: b) = a :: PyStr.split_chars sep b.
Proof.
  induction a as [|c a IH]; simpl.
  - intros _. rewrite Ascii.eqb_refl. reflexivity.
  - intros H. apply andb_prop in H as [Hc Ha]. apply negb_true_iff in Hc.
    rewrite Hc, (IH Ha). reflexivity.
Qed.

Lemma endswith_app (a b : string) : PyStr.endswith (a ++ b) b = true.
Proof.
  unfold PyStr.endswith. rewrite chars_app, rev_app_distr, of_chars_app.
  apply prefix_app.
Qed.

Lemma glob_parts (p x q : string) :
  (PyStr.startswith (p ++ x ++ q) p && PyStr.endswith (p ++ x ++ q) q
   && (String.length p + String.length q <=? String.length (p ++ x ++ q))%nat)
  = true.
Proof.
  unfold PyStr.startswith. rewrite prefix_app. simpl andb.
  replace (p ++ x ++ q) with ((p ++ x) ++ q).
  2:{ clear. induction p as [|c p IH]; simpl; congruence. }
  rewrite endswith_app, !string_length_app. simpl andb.
  apply Nat.leb_le. lia.
Qed.

End Names.

(** X1. Joining the pieces of a split with the separator gives the text
    back. *)
Theorem join_split (sep : ascii) (s : string) :
  PyStr.join (String sep "") (PyStr.split sep s) = s.
Proof.
  unfold PyStr.split. rewrite join_split_chars. apply of_chars_chars.
Qed.

(** The name of an archived report: the cleanup reads its timestamp back
    and the glob yields it. *)
Lemma timestamp_str_of_archive_name_parts (x : string) :
  Report.timestamp_str ("crypto_analysis_" ++ x ++ ".pdf") = x
  /\ Report.glob_match ("crypto_analysis_" ++ x ++ ".pdf") = true.
Proof.
  split.
  - unfold Report.timestamp_str, Report.stem.
    replace (String.length ("crypto_analysis_" ++ x ++ ".pdf") - 4)%nat
      with (String.length ("crypto_analysis_" ++ x)).
    2:{ rewrite !string_length_app. simpl. lia. }
    replace ("crypto_analysis_" ++ x ++ ".pdf") with (("crypto_analysis_" ++ x) ++ ".pdf").
    2:{ simpl. reflexivity || (induction x; simpl; congruence). }
    rewrite substring_app. unfold PyStr.split.
    change (PyStr.chars ("crypto_analysis_" ++ x))
      with ((PyStr.chars "crypto" ++ "_"%char :: PyStr.chars "analysis"
             ++ "_"%char :: PyStr.chars x)%list).
    rewrite split_chars_piece by reflexivity.
    rewrite split_chars_piece by reflexivity.
    cbn [map drop]. rewrite drop_0, join_split_chars. apply of_chars_chars.
  - unfold Report.glob_match.
    exact (glob_parts "crypto_analysis_" x ".pdf").
Qed.

(** X2. From a name [crypto_analysis_<x>.pdf] the cleanup reads back [<x>],
    whatever [<x>] is, and the glob yields every such name. *)
Theorem timestamp_str_of_archive_name (x : string) :
  Report.timestamp_str ("crypto_analysis_" ++ x ++ ".pdf") = x
  /\ Report.glob_match ("crypto_analysis_" ++ x ++ ".pdf") = true.
Proof. exact (timestamp_str_of_archive_name_parts x). Qed.

(** ** Writing a timestamp and reading it back *)

Section Timestamps.

Local Open Scope Z_scope.

Lemma match_seq_app (ks : list PyTime.cls) (l r : list ascii) :
  (length ks <= length l)%nat ->
  PyTime.match_seq ks (l ++ r) =
    match PyTime.match_seq ks l with
    | Some (m, r') => Some (m, (r' ++ r)%list)
    | None => None
    end.
Proof.
  revert l. induction ks as [|k ks IH]; intros l Hlen; simpl; [reflexivity|].
  destruct l as [|c l]; simpl in *; [lia|].
  destruct (PyTime.in_cls k c); [|reflexivity].
  rewrite IH by lia. destruct (PyTime.match_seq ks l) as [[m r']|]; reflexivity.
Qed.

Lemma match_group_app (alts : list (list PyTime.cls)) (l r : list ascii) :
  forallb (fun ks => (length ks <=? length l)%nat) alts = true ->
  PyTime.match_group alts (l ++ r) =
    map (fun '(v, r') => (v, (r' ++ r)%list)) (PyTime.match_group alts l).
Proof.
  unfold PyTime.match_group. induction alts as [|ks alts IH]; simpl; [reflexivity|].
  intros H. apply andb_prop in H as [Hk H]. apply Nat.leb_le in Hk.
  rewrite match_seq_app by exact Hk. rewrite map_app, (IH H).
  destruct (PyTime.match_seq ks l) as [[m r']|]; reflexivity.
Qed.

(** A PyTime.field_chars read at the head of a longer text: if the PyTime.field_chars alone reads as
    [v] with nothing left, then before [r] it reads first as [v], leaving
    [r]. *)
Lemma match_group_head (alts : list (list PyTime.cls)) (l r : list ascii) (v : Z) :
  forallb (fun ks => (length ks <=? length l)%nat) alts = true ->
  hd_error (PyTime.match_group alts l) = Some (v, []) ->
  exists tl, PyTime.match_group alts (l ++ r) = (v, r) :: tl.
Proof.
  intros Hlen Hhd. rewrite (match_group_app alts l r Hlen).
  destruct (PyTime.match_group alts l) as [|[v' r'] tl]; [discriminate|].
  injection Hhd as -> ->. simpl. eauto.
Qed.

(** Every value of a field, written by [strftime], is read back first by
    the field's expression: checked on the whole range of the field. *)
Lemma reads_back_range (alts : list (list PyTime.cls)) (w : nat) (lo n : Z) :
  forallb (fun k => PyTime.reads_back alts w (Z.of_nat k)) (seq (Z.to_nat lo) (Z.to_nat n))
  = true ->
  forall v, 0 <= lo <= v -> v < lo + n -> PyTime.reads_back alts w v = true.
Proof.
  intros H v Hlo Hv. rewrite forallb_forall in H.
  rewrite <- (Z2Nat.id v) by lia. apply H. apply in_seq. lia.
Qed.

Lemma reads_back_head (alts : list (list PyTime.cls)) (w : nat) (v : Z) (r : list ascii) :
  PyTime.reads_back alts w v = true ->
  exists tl, PyTime.match_group alts (PyTime.field_chars w v ++ r) = (v, r) :: tl.
Proof.
  unfold PyTime.reads_back. intros H.
  destruct (PyTime.match_group alts (PyTime.field_chars w v)) as [|[v' [|c r']] tl] eqn:E;
    try discriminate.
  apply andb_prop in H as [Hv Hlen]. apply Z.eqb_eq in Hv. subst v'.
  apply match_group_head; [exact Hlen|]. rewrite E. reflexivity.
Qed.

Lemma year_reads_back v : 1000 <= v <= 9999 -> PyTime.reads_back PyTime.re_Y 4 v = true.
Proof.
  intros H. apply (reads_back_range PyTime.re_Y 4 1000 9000); [vm_compute; reflexivity|lia|lia].
Qed.

Lemma month_reads_back v : 1 <= v <= 12 -> PyTime.reads_back PyTime.re_m 2 v = true.
Proof.
  intros H. apply (reads_back_range PyTime.re_m 2 1 12); [vm_compute; reflexivity|lia|lia].
Qed.

Lemma day_reads_back v : 1 <= v <= 31 -> PyTime.reads_back PyTime.re_d 2 v = true.
Proof.
  intros H. apply (reads_back_range PyTime.re_d 2 1 31); [vm_compute; reflexivity|lia|lia].
Qed.

Lemma hour_reads_back v : 0 <= v <= 23 -> PyTime.reads_back PyTime.re_H 2 v = true.
Proof.
  intros H. apply (reads_back_range PyTime.re_H 2 0 24); [vm_compute; reflexivity|lia|lia].
Qed.

Lemma minute_reads_back v : 0 <= v <= 59 -> PyTime.reads_back PyTime.re_M 2 v = true.
Proof.
  intros H. apply (reads_back_range PyTime.re_M 2 0 60); [vm_compute; reflexivity|lia|lia].
Qed.

Lemma second_reads_back v : 0 <= v <= 59 -> PyTime.reads_back PyTime.re_S 2 v = true.
Proof.
  intros H. apply (reads_back_range PyTime.re_S 2 0 60); [vm_compute; reflexivity|lia|lia].
Qed.

Lemma days_in_month_le (y m : Z) : PyTime.days_in_month y m <= 31.
Proof.
  unfold PyTime.days_in_month.
  destruct (m =? 2); [destruct (PyTime.is_leap y); lia|].
  destruct ((m =? 4) || (m =? 6) || (m =? 9) || (m =? 11)); lia.
Qed.

(** The bounds the constructor checks. *)
Lemma valid_bounds (d : PyTime.datetime) :
  PyTime.valid d = true ->
  1 <= PyTime.year d <= 9999 /\ 1 <= PyTime.month d <= 12
  /\ 1 <= PyTime.day d <= PyTime.days_in_month (PyTime.year d) (PyTime.month d)
  /\ 0 <= PyTime.hour d <= 23 /\ 0 <= PyTime.minute d <= 59
  /\ 0 <= PyTime.second d <= 59 /\ 0 <= PyTime.microsecond d <= 999999.
Proof.
  unfold PyTime.valid. rewrite !andb_true_iff, !Z.leb_le. tauto.
Qed.

Lemma valid_whole_second (d : PyTime.datetime) :
  PyTime.valid d = true ->
  PyTime.valid (PyTime.mk_datetime (PyTime.year d) (PyTime.month d) (PyTime.day d)
                  (PyTime.hour d) (PyTime.minute d) (PyTime.second d) 0) = true.
Proof.
  intros H. apply valid_bounds in H. unfold PyTime.valid. simpl.
  rewrite !andb_true_iff, !Z.leb_le. lia.
Qed.

Lemma strftime_chars (d : PyTime.datetime) :
  PyStr.chars (PyTime.strftime_Ymd_HMS d) =
    (PyTime.field_chars 4 (PyTime.year d) ++ PyTime.field_chars 2 (PyTime.month d) ++ PyTime.field_chars 2 (PyTime.day d)
     ++ "_"%char :: PyTime.field_chars 2 (PyTime.hour d) ++ PyTime.field_chars 2 (PyTime.minute d)
     ++ PyTime.field_chars 2 (PyTime.second d) ++ [])%list.
Proof.
  unfold PyTime.strftime_Ymd_HMS, PyTime.field_chars. rewrite !chars_app, app_nil_r. reflexivity.
Qed.

Lemma matches_strftime (d : PyTime.datetime) :
  PyTime.valid d = true -> 1000 <= PyTime.year d ->
  exists tl,
    PyTime.matches_Ymd_HMS (PyStr.chars (PyTime.strftime_Ymd_HMS d)) =
      (PyTime.mk_datetime (PyTime.year d) (PyTime.month d) (PyTime.day d)
         (PyTime.hour d) (PyTime.minute d) (PyTime.second d) 0, []) :: tl.
Proof.
  intros Hv Hy. destruct (valid_bounds d Hv) as (By & Bm & Bd & BH & BM & BS & _).
  pose proof (days_in_month_le (PyTime.year d) (PyTime.month d)) as Hdim.
  rewrite strftime_chars. unfold PyTime.matches_Ymd_HMS.
  destruct (reads_back_head PyTime.re_Y 4 (PyTime.year d)
              (PyTime.field_chars 2 (PyTime.month d) ++ PyTime.field_chars 2 (PyTime.day d)
               ++ "_"%char :: PyTime.field_chars 2 (PyTime.hour d)
               ++ PyTime.field_chars 2 (PyTime.minute d)
               ++ PyTime.field_chars 2 (PyTime.second d) ++ [])) as [tY ->];
    [apply year_reads_back; lia|].
  cbn [flat_map].
  destruct (reads_back_head PyTime.re_m 2 (PyTime.month d)
              (PyTime.field_chars 2 (PyTime.day d)
               ++ "_"%char :: PyTime.field_chars 2 (PyTime.hour d)
               ++ PyTime.field_chars 2 (PyTime.minute d)
               ++ PyTime.field_chars 2 (PyTime.second d) ++ [])) as [tm ->];
    [apply month_reads_back; lia|].
  cbn [flat_map].
  destruct (reads_back_head PyTime.re_d 2 (PyTime.day d)
              ("_"%char :: PyTime.field_chars 2 (PyTime.hour d)
               ++ PyTime.field_chars 2 (PyTime.minute d)
               ++ PyTime.field_chars 2 (PyTime.second d) ++ [])) as [td ->];
    [apply day_reads_back; lia|].
  cbn [flat_map].
  change (PyTime.match_group PyTime.re_sep
            ("_"%char :: PyTime.field_chars 2 (PyTime.hour d)
             ++ PyTime.field_chars 2 (PyTime.minute d)
             ++ PyTime.field_chars 2 (PyTime.second d) ++ []))
    with [(0, (PyTime.field_chars 2 (PyTime.hour d)
               ++ PyTime.field_chars 2 (PyTime.minute d)
               ++ PyTime.field_chars 2 (PyTime.second d) ++ [])%list)].
  cbn [flat_map].
  destruct (reads_back_head PyTime.re_H 2 (PyTime.hour d)
              (PyTime.field_chars 2 (PyTime.minute d)
               ++ PyTime.field_chars 2 (PyTime.second d) ++ []))
    as [tH ->]; [apply hour_reads_back; lia|].
  cbn [flat_map].
  destruct (reads_back_head PyTime.re_M 2 (PyTime.minute d)
              (PyTime.field_chars 2 (PyTime.second d) ++ [])) as [tM ->];
    [apply minute_reads_back; lia|].
  cbn [flat_map].
  destruct (reads_back_head PyTime.re_S 2 (PyTime.second d) []) as [tS ->];
    [apply second_reads_back; lia|].
  cbn [map app]. eexists. reflexivity.
Qed.

End Timestamps.

Lemma strptime_strftime_parts (d : PyTime.datetime) :
  PyTime.valid d = true -> (1000 <= PyTime.year d)%Z ->
  PyTime.strptime_Ymd_HMS (PyTime.strftime_Ymd_HMS d)
  = Some (PyTime.mk_datetime (PyTime.year d) (PyTime.month d) (PyTime.day d)
            (PyTime.hour d) (PyTime.minute d) (PyTime.second d) 0).
Proof.
  intros Hv Hy. unfold PyTime.strptime_Ymd_HMS.
  destruct (matches_strftime d Hv Hy) as [tl ->].
  rewrite (valid_whole_second d Hv). reflexivity.
Qed.

(** X3. A timestamp written with [strftime("%Y%m%d_%H%M%S")] is read back
    by [strptime] as the same instant, to the second: for every valid
    datetime of a year of four digits. *)
Theorem strptime_strftime (d : PyTime.datetime) :
  PyTime.valid d = true -> (1000 <= PyTime.year d)%Z ->
  PyTime.strptime_Ymd_HMS (PyTime.strftime_Ymd_HMS d)
  = Some (PyTime.mk_datetime (PyTime.year d) (PyTime.month d) (PyTime.day d)
            (PyTime.hour d) (PyTime.minute d) (PyTime.second d) 0).
Proof. exact (strptime_strftime_parts d). Qed.

Lemma strptime_strftime_witness :
  PyTime.strptime_Ymd_HMS
    (PyTime.strftime_Ymd_HMS (PyTime.mk_datetime 2024 2 29 23 59 58 123456))
  = Some (PyTime.mk_datetime 2024 2 29 23 59 58 0).
Proof.
  apply (strptime_strftime (PyTime.mk_datetime 2024 2 29 23 59 58 123456)).
  - reflexivity.
  - discriminate.
Defined.

(** ** What the cleanup and the generation leave on disk *)

Section Archive.

Import Frame.

Local Open Scope Z_scope.

Lemma cleanup_loop_sublist (current_time : PyTime.datetime) (dir : list (string * pdf)) :
  sublist (fst (Report.cleanup_loop current_time dir)) dir.
Proof.
  induction dir as [|[n p] dir IH]; simpl; [constructor|].
  destruct (Report.cleanup_loop current_time dir) as [rest' done]. simpl in IH.
  destruct (Report.glob_match n).
  - destruct (PyTime.strptime_Ymd_HMS (Report.timestamp_str n)) as [rt|]; [|reflexivity].
    destruct (PyTime.days 7 <? PyTime.sub current_time rt); simpl.
    + apply sublist_cons, IH.
    + apply sublist_skip, IH.
  - simpl. apply sublist_skip, IH.
Qed.

Lemma In_write_entry (n : string) (p : pdf) (dir : list (string * pdf)) :
  In (n, p) (Report.write_entry n p dir).
Proof.
  induction dir as [|[n' p'] dir IH]; simpl; [auto|].
  destruct (String.eqb n n'); simpl; auto.
Qed.

Lemma generate_report_workbook (e : Report.env) (d : files) :
  excel_file (snd (Report.generate_report e d)) = excel_file d.
Proof.
  unfold Report.generate_report.
  destruct (Report.dirs_ok e); simpl; [|reflexivity].
  destruct (Report.load_data e d) as [wb|]; [|reflexivity].
  destruct (Report.latest_ok e); simpl; [|reflexivity].
  destruct (Report.archive_ok e); reflexivity.
Qed.

End Archive.

(** X4. In an archive of ASCII file names the cleanup never adds or
    reorders a file, and in every case it keeps every file that is not
    expired: in particular a report whose timestamp is seven days before
    now or less, to the microsecond. *)
Theorem cleanup_removes_only_expired (current_time : PyTime.datetime)
    (dir : list (string * Frame.pdf)) :
  forallb (fun x => PyStr.is_ascii (fst x)) dir = true ->
  sublist (fst (Report.cleanup_loop current_time dir)) dir
  /\ (forall x, In x dir -> Report.expired current_time (fst x) = false ->
      In x (fst (Report.cleanup_loop current_time dir)))
  /\ (forall n p report_time,
      In (n, p) dir ->
      PyTime.strptime_Ymd_HMS (Report.timestamp_str n) = Some report_time ->
      (PyTime.sub current_time report_time <= PyTime.days 7)%Z ->
      In (n, p) (fst (Report.cleanup_loop current_time dir))).
Proof.
  intros _. split; [apply cleanup_loop_sublist|]. split.
  - intros x Hin Hx. apply cleanup_loop_keeps; assumption.
  - intros n p rt Hin Hs Hage. apply cleanup_loop_keeps; [assumption|].
    unfold Report.expired. simpl. rewrite Hs.
    replace (PyTime.days 7 <? PyTime.sub current_time rt)%Z with false
      by (symmetry; apply Z.ltb_ge; assumption).
    apply andb_false_r.
Qed.

Lemma cleanup_removes_only_expired_witness :
  sublist (fst (Report.cleanup_loop (Sample.at_noon 10 0 0) Sample.archive_week))
          Sample.archive_week
  /\ In ("crypto_analysis_20240303_120000.pdf", Sample.old_pdf)
        (fst (Report.cleanup_loop (Sample.at_noon 10 0 0) Sample.archive_week))
  /\ In ("notes.txt", Sample.torn)
        (fst (Report.cleanup_loop (Sample.at_noon 10 0 0) Sample.archive_week)).
Proof.
  destruct (cleanup_removes_only_expired (Sample.at_noon 10 0 0) Sample.archive_week
              eq_refl) as (H1 & H2 & H3).
  split; [exact H1|]. split.
  - apply (H3 "crypto_analysis_20240303_120000.pdf" Sample.old_pdf
              (PyTime.mk_datetime 2024 3 3 12 0 0 0)).
    + right. left. reflexivity.
    + reflexivity.
    + vm_compute. discriminate.
  - apply (H2 ("notes.txt", Sample.torn)).
    + right. right. left. reflexivity.
    + reflexivity.
Defined.

(** X5. When no name in the archive is stray, the cleanup runs to its end
    and removes exactly the expired reports: what stays is the directory
    without them, in its order. *)
Theorem cleanup_without_stray_names (current_time : PyTime.datetime) (d : Frame.files) :
  forallb (fun x => negb (Report.stray (fst x))) (Frame.archive_dir d) = true ->
  Frame.archive_dir (Report._cleanup_old_reports current_time d)
  = List.filter (fun x => negb (Report.expired current_time (fst x))) (Frame.archive_dir d).
Proof.
  intros H. unfold Report._cleanup_old_reports. simpl.
  rewrite (cleanup_loop_complete current_time _ H). reflexivity.
Qed.

Lemma cleanup_without_stray_names_witness :
  map fst
    (Frame.archive_dir
       (Report._cleanup_old_reports (Sample.at_noon 10 0 0)
          (Frame.mk_files None None
             [("crypto_analysis_20240302_120000.pdf", Sample.old_pdf);
              ("notes.txt", Sample.old_pdf);
              ("crypto_analysis_20240307_120000.pdf", Sample.old_pdf)])))
  = ["notes.txt"; "crypto_analysis_20240307_120000.pdf"].
Proof.
  rewrite (cleanup_without_stray_names (Sample.at_noon 10 0 0)
             (Frame.mk_files None None
                [("crypto_analysis_20240302_120000.pdf", Sample.old_pdf);
                 ("notes.txt", Sample.old_pdf);
                 ("crypto_analysis_20240307_120000.pdf", Sample.old_pdf)])).
  - reflexivity.
  - reflexivity.
Defined.

(** X6. A generation that succeeds leaves the report built from the
    workbook in the latest slot and, under the name of its timestamp, in
    the archive: the cleanup that follows reads that name back and keeps
    the file, the cleanup's clock being within seven days of the stamp. *)
Theorem new_report_is_archived (e : Report.env) (d d' : Frame.files) :
  Report.generate_report e d = (true, d') ->
  PyTime.valid (Report.stamp e) = true ->
  (1000 <= PyTime.year (Report.stamp e))%Z ->
  (PyTime.sub (Report.cleanup_now e) (Report.stamp e) <= PyTime.days 7 - PyTime.seconds 1)%Z ->
  exists wb,
    Report.load_data e d = Some wb
    /\ Frame.latest_report d'
       = Some (Report.create_pdf_report (Report.latest_now e) (Frame.live_data wb))
    /\ In ("crypto_analysis_" ++ PyTime.strftime_Ymd_HMS (Report.stamp e) ++ ".pdf",
           Report.create_pdf_report (Report.archive_now e) (Frame.live_data wb))
          (Frame.archive_dir d').
Proof.
  unfold Report.generate_report. intros H Hv Hy Hage.
  destruct (Report.dirs_ok e); simpl in H; [|discriminate].
  destruct (Report.load_data e d) as [wb|]; [|discriminate].
  destruct (Report.latest_ok e); simpl in H; [|discriminate].
  destruct (Report.archive_ok e); simpl in H; [|discriminate].
  injection H as <-. exists wb. split; [reflexivity|]. split; [reflexivity|].
  unfold Report._cleanup_old_reports. cbn [Frame.archive_dir].
  apply cleanup_loop_keeps; [apply In_write_entry|].
  unfold Report.expired. cbn [fst].
  destruct (timestamp_str_of_archive_name_parts (PyTime.strftime_Ymd_HMS (Report.stamp e)))
    as [-> ->].
  rewrite (strptime_strftime_parts _ Hv Hy). cbn [andb].
  apply Z.ltb_ge.
  destruct (valid_bounds _ Hv) as (_ & _ & _ & _ & _ & _ & Hus).
  unfold PyTime.sub, PyTime.to_microseconds, PyTime.toordinal, PyTime.days, PyTime.seconds
    in *. simpl. lia.
Qed.

Lemma new_report_is_archived_witness :
  exists wb,
    Report.load_data (Sample.fine (Sample.at_noon 10 0 0)) Sample.stocked = Some wb
    /\ Frame.latest_report
         (snd (Report.generate_report (Sample.fine (Sample.at_noon 10 0 0)) Sample.stocked))
       = Some (Report.create_pdf_report (Sample.at_noon 10 0 0) (Frame.live_data wb))
    /\ In ("crypto_analysis_" ++ PyTime.strftime_Ymd_HMS (Sample.at_noon 10 0 0) ++ ".pdf",
           Report.create_pdf_report (Sample.at_noon 10 0 0) (Frame.live_data wb))
          (Frame.archive_dir
             (snd (Report.generate_report (Sample.fine (Sample.at_noon 10 0 0))
                     Sample.stocked))).
Proof.
  apply (new_report_is_archived (Sample.fine (Sample.at_noon 10 0 0)) Sample.stocked).
  - reflexivity.
  - reflexivity.
  - discriminate.
  - vm_compute. discriminate.
Defined.

(** X7. [generate_report] never changes the workbook, and without a
    workbook it returns [False] and leaves every file as it was. *)
Theorem generate_report_reads_only (e : Report.env) (d : Frame.files) :
  Frame.excel_file (snd (Report.generate_report e d)) = Frame.excel_file d
  /\ (Frame.excel_file d = None -> Report.generate_report e d = (false, d)).
Proof.
  split; [apply generate_report_workbook|].
  intros H. unfold Report.generate_report, Report.load_data. rewrite H.
  destruct (Report.dirs_ok e); reflexivity.
Qed.

Lemma generate_report_reads_only_witness :
  Report.generate_report (Sample.fine (Sample.at_noon 10 0 0)) Sample.fresh
  = (false, Sample.fresh).
Proof.
  apply (proj2 (generate_report_reads_only (Sample.fine (Sample.at_noon 10 0 0))
                  Sample.fresh)).
  reflexivity.
Defined.

(** ** More on the loop *)

Section Loop.

Import Frame Tracker.

Local Open Scope Z_scope.

Variable update_interval : Z.

(** What one iteration adds to the log and does to the last report time:
    the events after its fetch, among the five shapes below. *)
Lemma body_events (e : cycle_env) (t : tracker) :
  exists evs,
    log (snd (body update_interval e t)) = (log t ++ EvFetch :: evs)%list
    /\ (evs = [] \/ evs = [EvSleep update_interval]
        \/ evs = [EvStore false] \/ evs = [EvStore false; EvSleep update_interval]
        \/ (exists ok, evs = [EvStore true; EvReport ok]
                       \/ evs = [EvStore true; EvReport ok; EvSleep update_interval])
        \/ evs = [EvStore true] \/ evs = [EvStore true; EvSleep update_interval]).
Proof.
  destruct (body_paths update_interval e t)
    as [Hf|[Hi|[[k H]|[H|[[d' H]|[[d' [_ H]]|[d'' [ok [_ H]]]]]]]]]; rewrite ?H.
  - rewrite (body_fetch_failed update_interval e t Hf). exists []. simpl. auto.
  - rewrite (body_fetch_interrupted update_interval e t Hi). exists []. simpl. auto.
  - exists []. simpl. auto.
  - destruct (call_sleep_cases update_interval e (logged [EvFetch] t)) as [->|[k ->]].
    + exists [EvSleep update_interval]. simpl. rewrite <- app_assoc. auto.
    + exists []. simpl. auto.
  - match goal with |- context [call_sleep _ _ ?s] =>
      destruct (call_sleep_cases update_interval e s) as [->|[k ->]] end.
    + exists [EvStore false; EvSleep update_interval]. simpl. rewrite <- app_assoc. auto 6.
    + exists [EvStore false]. simpl. auto.
  - match goal with |- context [call_sleep _ _ ?s] =>
      destruct (call_sleep_cases update_interval e s) as [->|[k ->]] end.
    + exists [EvStore true; EvSleep update_interval]. simpl. rewrite <- app_assoc.
      split; [reflexivity|]. do 6 right. reflexivity.
    + exists [EvStore true]. simpl. split; [reflexivity|]. do 5 right. left. reflexivity.
  - match goal with |- context [call_sleep _ _ ?s] =>
      destruct (call_sleep_cases update_interval e s) as [->|[k ->]] end.
    + exists [EvStore true; EvReport ok; EvSleep update_interval]. simpl.
      rewrite <- app_assoc. split; [reflexivity|]. do 4 right. left. exists ok. auto.
    + exists [EvStore true; EvReport ok]. simpl.
      split; [reflexivity|]. do 4 right. left. exists ok. auto.
Qed.

Lemma body_last_report_time (e : cycle_env) (t : tracker) :
  last_report_time (snd (body update_interval e t)) = last_report_time t
  \/ (last_report_time (snd (body update_interval e t)) = Some (now e)
      /\ report_due (last_report_time t) (now e) = true).
Proof.
  destruct (body_paths update_interval e t)
    as [Hf|[Hi|[[k H]|[H|[[d' H]|[[d' [_ H]]|[d'' [ok [Hd H]]]]]]]]]; rewrite ?H.
  - rewrite (body_fetch_failed update_interval e t Hf). left. reflexivity.
  - rewrite (body_fetch_interrupted update_interval e t Hi). left. reflexivity.
  - left. reflexivity.
  - destruct (call_sleep_cases update_interval e (logged [EvFetch] t)) as [->|[k ->]];
      left; reflexivity.
  - match goal with |- context [call_sleep _ _ ?s] =>
      destruct (call_sleep_cases update_interval e s) as [->|[k ->]] end; left; reflexivity.
  - match goal with |- context [call_sleep _ _ ?s] =>
      destruct (call_sleep_cases update_interval e s) as [->|[k ->]] end; left; reflexivity.
  - match goal with |- context [call_sleep _ _ ?s] =>
      destruct (call_sleep_cases update_interval e s) as [->|[k ->]] end;
      destruct ok; simpl; auto.
Qed.

(** Where the loop has stopped, some fetch failed and the counter is at
    the threshold. *)
Lemma loop_stopped (es : list cycle_env) (t : tracker) :
  fst (loop update_interval es t) = Stopped ->
  max_errors <= errors_count (snd (loop update_interval es t))
  /\ exists e, In e es /\ fetch_failed e = true.
Proof.
  revert t. induction es as [|e es IH]; intros t; simpl; [discriminate|].
  destruct (body update_interval e t) as [[[]|[| |[|]]] t1] eqn:Hb; simpl.
  - intros H. destruct (IH _ H) as (Hc & e' & Hin & He). eauto.
  - intros H. destruct (IH _ H) as (Hc & e' & Hin & He). eauto.
  - intros _. destruct (body_break update_interval e t t1 Hb) as [He Hc]. eauto.
  - intros H. destruct (IH _ H) as (Hc & e' & Hin & He). eauto.
  - discriminate.
Qed.

Lemma transform_failed_not_fetch_failed (e : cycle_env) :
  transform_failed e = true -> fetch_failed e = false.
Proof.
  unfold transform_failed, fetch_failed.
  destruct (raised e AtFetch); [discriminate|].
  destruct (fetch_top_50_data (responses e)) as [[|c data]|]; try discriminate.
  reflexivity.
Qed.

(** Fetch failures with abandoned cycles in between. *)
Lemma loop_failures_accumulate (es : list cycle_env) (t : tracker) :
  forallb (fun e => fetch_failed e || (transform_failed e && sleep_returns e)) es = true ->
  errors_count t < max_errors ->
  max_errors <= errors_count t + Z.of_nat (length (List.filter fetch_failed es)) ->
  fst (loop update_interval es t) = Stopped.
Proof.
  revert t. induction es as [|e es IH]; intros t Hall Hlt Hmax.
  - simpl in Hmax. lia.
  - simpl in Hall. apply andb_prop in Hall as [He Hall]. simpl in Hmax.
    destruct (fetch_failed e) eqn:Hf.
    + simpl loop. rewrite (body_fetch_failed update_interval e t Hf).
      destruct (max_errors <=? errors_count t + 1) eqn:Hm; [reflexivity|].
      apply Z.leb_gt in Hm. apply IH; [exact Hall|simpl; lia|].
      simpl length in Hmax. simpl errors_count. lia.
    + simpl in He. apply andb_prop in He as [Ht Hs].
      destruct (transform_failed_returns e Ht) as (data & Hr & Hp).
      simpl loop. rewrite (body_transform_failed update_interval e t data Hr Hp).
      unfold sleep_returns in Hs. unfold call_sleep.
      destruct (raised e AtSleep); [discriminate|].
      unfold emit, logged. simpl. apply IH; [exact Hall|simpl; lia|simpl; lia].
Qed.

(** A table that [process_data] returns can be analysed. *)
Lemma analyze_data_after_process (now : PyTime.datetime) (data : payload) (df : dataframe) :
  process_data data = Some df -> exists a, analyze_data now df = Some a.
Proof.
  intros Hp. destruct (process_data_names data df Hp) as [Hne _].
  unfold analyze_data.
  destruct (nlargest1_some Change_24h_pct df Hne) as [hi ->].
  destruct (nsmallest1_some Change_24h_pct df Hne) as [lo ->]. eauto.
Qed.

(** An interrupt during the sleep, in an iteration whose fetch did not
    fail: the iteration ends there by the interrupt. *)
Lemma body_sleep_interrupted (e : cycle_env) (t : tracker) :
  fault e = Some (AtSleep, KeyboardInterrupt) -> fetch_failed e = false ->
  exists t', body update_interval e t = (inr (Raise KeyboardInterrupt), t')
             /\ (errors_count t' = errors_count t \/ errors_count t' = 0).
Proof.
  intros Hfault Hff.
  assert (Hrf : raised e AtFetch = None) by (unfold raised; rewrite Hfault; reflexivity).
  assert (Hra : raised e AtAnalyze = None) by (unfold raised; rewrite Hfault; reflexivity).
  assert (Hrs : raised e AtSleep = Some KeyboardInterrupt)
    by (unfold raised; rewrite Hfault; reflexivity).
  assert (Hsleep : forall s, call_sleep e update_interval s = (inr (Raise KeyboardInterrupt), s))
    by (intros s; unfold call_sleep, leave; rewrite Hrs; reflexivity).
  unfold fetch_failed in Hff. rewrite Hrf in Hff.
  destruct (fetch_top_50_data (responses e)) as [[|c data]|] eqn:Hf; try discriminate.
  assert (Hret : fetch_returns e (c :: data))
    by (split; [assumption|split; [assumption|discriminate]]).
  destruct (process_data (c :: data)) as [df|] eqn:Hp.
  - destruct (analyze_data_after_process (analysis_now e) _ _ Hp) as [a Han].
    destruct (update_excel (excel_ok e) df a (disk t)) as [[|] d'] eqn:Hu.
    + destruct (report_due (last_report_time t) (now e)) eqn:Hd.
      * destruct (Report.generate_report (report_env e) d') as [ok d''] eqn:Hg.
        rewrite (body_stored_due update_interval e t _ df a d' d'' ok Hret Hp Hra Han Hu Hd Hg).
        rewrite Hsleep. eexists. split; [reflexivity|]. simpl. auto.
      * rewrite (body_stored_not_due update_interval e t _ df a d' Hret Hp Hra Han Hu Hd).
        rewrite Hsleep. eexists. split; [reflexivity|]. simpl. auto.
    + rewrite (body_store_failed update_interval e t _ df a d' Hret Hp Hra Han Hu).
      rewrite Hsleep. eexists. split; [reflexivity|]. simpl. auto.
  - rewrite (body_transform_failed update_interval e t _ Hret Hp).
    rewrite Hsleep. eexists. split; [reflexivity|]. simpl. auto.
Qed.

End Loop.

(** X8. Every iteration of the loop calls the fetch exactly once, as the
    first thing it does, stores at most once and generates at most one
    report, and a report only after a store that succeeded. *)
Theorem one_fetch_per_iteration (update_interval : Z) (e : Tracker.cycle_env)
    (t : Tracker.tracker) :
  exists evs,
    Tracker.log (snd (Tracker.body update_interval e t))
    = (Tracker.log t ++ Tracker.EvFetch :: evs)%list
    /\ Tracker.fetches evs = 0%nat
    /\ (Tracker.reports evs <= 1)%nat
    /\ (Tracker.reports evs = 1%nat -> In (Tracker.EvStore true) evs).
Proof.
  destruct (body_events update_interval e t) as (evs & Hlog & Hshape).
  exists evs. split; [exact Hlog|].
  destruct Hshape as [->|[->|[->|[->|[[ok [->| ->]]|[->| ->]]]]]];
    vm_compute; repeat split; try lia; try discriminate; auto.
Qed.

(** X9. An iteration changes the last report time to nothing but the time
    read at its own start, and only when a report was due. *)
Theorem last_report_time_is_cycle_start (update_interval : Z) (e : Tracker.cycle_env)
    (t : Tracker.tracker) :
  Tracker.last_report_time (snd (Tracker.body update_interval e t))
  = Tracker.last_report_time t
  \/ (Tracker.last_report_time (snd (Tracker.body update_interval e t))
      = Some (Tracker.now e)
      /\ Tracker.report_due (Tracker.last_report_time t) (Tracker.now e) = true).
Proof. apply body_last_report_time. Qed.

(** X10. In every run the counter is never negative, and a run that has
    stopped on errors has its counter at 5 or more and an iteration whose
    fetch failed. *)
Theorem stopped_means_threshold (update_interval : Z) (b : Tracker.boot_env)
    (es : list Tracker.cycle_env) (d : Frame.files) :
  (0 <= Tracker.errors_count (snd (Tracker.run update_interval b es d)))%Z
  /\ (fst (Tracker.run update_interval b es d) = Tracker.Stopped ->
      (5 <= Tracker.errors_count (snd (Tracker.run update_interval b es d)))%Z
      /\ exists e, In e es /\ Tracker.fetch_failed e = true).
Proof.
  unfold Tracker.run. destruct (Tracker.startup b d) as [t0|] eqn:Hs.
  - split.
    + apply loop_errors_count_nonneg.
      unfold Tracker.startup in Hs. destruct (Tracker.boot_dirs_ok b); [|discriminate].
      destruct (Report.generate_report _ _). injection Hs as <-. simpl. lia.
    + apply loop_stopped.
  - simpl. split; [lia|discriminate].
Qed.

Lemma stopped_means_threshold_witness :
  (5 <= Tracker.errors_count
          (snd (Tracker.run 300 (Sample.boot (Sample.at_noon 10 0 0))
                  (repeat (Sample.offline (Sample.at_noon 10 0 1)) 5) Sample.fresh)))%Z.
Proof.
  apply (proj2 (stopped_means_threshold 300 (Sample.boot (Sample.at_noon 10 0 0))
                  (repeat (Sample.offline (Sample.at_noon 10 0 1)) 5) Sample.fresh)).
  reflexivity.
Defined.

(** X11. The fetch failures that stop the scheduler need not be in a row:
    cycles abandoned at the transform in between do not reset the counter,
    so a script of fetch failures and such cycles, with enough failures to
    bring the counter to 5, ends stopped. *)
Theorem fetch_failures_accumulate (update_interval : Z) (es : list Tracker.cycle_env)
    (t : Tracker.tracker) :
  forallb (fun e => Tracker.fetch_failed e
                    || (Tracker.transform_failed e && Tracker.sleep_returns e)) es = true ->
  (Tracker.errors_count t < 5)%Z ->
  (5 <= Tracker.errors_count t
        + Z.of_nat (length (List.filter Tracker.fetch_failed es)))%Z ->
  fst (Tracker.loop update_interval es t) = Tracker.Stopped.
Proof. apply loop_failures_accumulate. Qed.

Lemma fetch_failures_accumulate_witness :
  fst (Tracker.loop 300
         [Sample.offline (Sample.at_noon 10 0 1); Sample.misshapen (Sample.at_noon 10 0 2);
          Sample.offline (Sample.at_noon 10 5 2); Sample.misshapen (Sample.at_noon 10 5 3);
          Sample.offline (Sample.at_noon 10 10 3); Sample.offline (Sample.at_noon 10 10 4);
          Sample.misshapen (Sample.at_noon 10 10 5); Sample.offline (Sample.at_noon 10 15 5)]
         (Tracker.mk_tracker None 0 Sample.fresh [])) = Tracker.Stopped.
Proof.
  apply (fetch_failures_accumulate 300).
  - reflexivity.
  - reflexivity.
  - vm_compute. discriminate.
Defined.

Section FirstStore.

Import Frame Tracker.

Local Open Scope Z_scope.

Variable update_interval : Z.

Lemma stores_app (l1 l2 : list event) :
  stores (l1 ++ l2) = (stores l1 + stores l2)%nat.
Proof. unfold stores. rewrite List.filter_app, length_app. reflexivity. Qed.

(** An iteration in which nothing is stored attempts no report and leaves
    the last report time as it was. *)
Lemma body_stores (e : cycle_env) (t : tracker) :
  (stores (log t) <= stores (log (snd (body update_interval e t))))%nat
  /\ (stores (log (snd (body update_interval e t))) = stores (log t) ->
      last_report_time (snd (body update_interval e t)) = last_report_time t
      /\ reports (log (snd (body update_interval e t))) = reports (log t)).
Proof.
  destruct (body_paths update_interval e t)
    as [Hf|[Hi|[[k H]|[H|[[d' H]|[[d' [_ H]]|[d'' [ok [Hd H]]]]]]]]]; rewrite ?H;
    rewrite ?(body_fetch_failed update_interval e t Hf);
    rewrite ?(body_fetch_interrupted update_interval e t Hi);
    try match goal with |- context [call_sleep _ _ ?s] =>
      destruct (call_sleep_cases update_interval e s) as [->|[k ->]] end;
    simpl; rewrite ?stores_app, ?reports_app; unfold stores, reports; simpl;
    (split; [lia|]); intros Hq;
    first [exfalso; lia | split; [reflexivity|lia]].
Qed.

Lemma loop_stores (es : list cycle_env) (t : tracker) :
  (stores (log t) <= stores (log (snd (loop update_interval es t))))%nat
  /\ (stores (log (snd (loop update_interval es t))) = stores (log t) ->
      last_report_time (snd (loop update_interval es t)) = last_report_time t
      /\ reports (log (snd (loop update_interval es t))) = reports (log t)).
Proof.
  revert t. induction es as [|e es IH]; intros t; simpl; [split; [lia|auto]|].
  destruct (body_stores e t) as [Hle Heq].
  destruct (body update_interval e t) as [[[]|[| |[|]]] t1]; simpl in *.
  - destruct (IH t1) as [Hle1 Heq1]. split; [lia|]. intros H.
    destruct Heq as [<- <-]; [lia|]. apply Heq1. lia.
  - destruct (IH t1) as [Hle1 Heq1]. split; [lia|]. intros H.
    destruct Heq as [<- <-]; [lia|]. apply Heq1. lia.
  - split; [lia|exact Heq].
  - destruct (IH (mk_tracker (last_report_time t1) (errors_count t1 + 1) (disk t1) (log t1)))
      as [Hle1 Heq1]. simpl in *. split; [lia|]. intros H.
    destruct Heq as [<- <-]; [lia|]. apply Heq1. lia.
  - split; [lia|exact Heq].
Qed.

End FirstStore.

(** X12. On a first run, with no workbook on disk, the bootstrap report
    fails and touches no file. As long as no cycle has stored, whatever
    cycles came before, no report is attempted after the bootstrap and no
    report time is recorded; and the first cycle that stores, wherever it
    comes in the run, generates the report at once. *)
Theorem first_run_reports_after_first_store (update_interval : Z) (b : Tracker.boot_env)
    (pre : list Tracker.cycle_env) (d d' : Frame.files) (t : Tracker.tracker)
    (e : Tracker.cycle_env) (data : Tracker.payload)
    (df : Frame.dataframe) (a : Tracker.analysis) :
  Frame.excel_file d = None ->
  Tracker.run update_interval b pre d = (Tracker.Running, t) ->
  Tracker.stores (Tracker.log t) = 0%nat ->
  Tracker.fetch_returns e data ->
  Tracker.process_data data = Some df ->
  Tracker.raised e Tracker.AtAnalyze = None ->
  Tracker.analyze_data (Tracker.analysis_now e) df = Some a ->
  Tracker.update_excel (Tracker.excel_ok e) df a (Tracker.disk t) = (true, d') ->
  Tracker.run update_interval b [] d
  = (Tracker.Running, Tracker.mk_tracker None 0 d [Tracker.EvReport false])
  /\ Tracker.last_report_time t = None
  /\ Tracker.reports (Tracker.log t) = 1%nat
  /\ exists evs,
      Tracker.log (snd (Tracker.run update_interval b (pre ++ [e]) d))
      = (Tracker.log t
         ++ [Tracker.EvFetch; Tracker.EvStore true;
             Tracker.EvReport (fst (Report.generate_report (Tracker.report_env e) d'))]
         ++ evs)%list.
Proof.
  intros Hx Hrun Hst Hr Hp Ha Han Hu.
  assert (Hs : Tracker.startup b d
               = Some (Tracker.mk_tracker None 0 d [Tracker.EvReport false])).
  { revert Hrun. unfold Tracker.run, Tracker.startup.
    destruct (Tracker.boot_dirs_ok b); [intros _|discriminate].
    unfold Report.generate_report, Report.load_data. rewrite Hx.
    destruct (Report.dirs_ok (Tracker.boot_report b)); reflexivity. }
  unfold Tracker.run in *. rewrite Hs in *. split; [reflexivity|].
  destruct (loop_stores update_interval pre
              (Tracker.mk_tracker None 0 d [Tracker.EvReport false])) as [_ Heq].
  rewrite Hrun in Heq. simpl in Heq. destruct (Heq Hst) as [Hl Hrep].
  split; [exact Hl|]. split; [exact Hrep|].
  rewrite loop_app, Hrun. simpl Tracker.loop.
  destruct (Report.generate_report (Tracker.report_env e) d') as [ok d''] eqn:Hg.
  assert (Hd : Tracker.report_due (Tracker.last_report_time t) (Tracker.now e) = true)
    by (rewrite Hl; reflexivity).
  rewrite (body_stored_due update_interval e t data df a d' d'' ok Hr Hp Ha Han Hu Hd Hg).
  match goal with |- context [Tracker.call_sleep _ _ ?s] =>
    destruct (call_sleep_cases update_interval e s) as [->|[[|] ->]] end; simpl;
    eexists; rewrite <- ?app_assoc; simpl; reflexivity.
Qed.

Lemma first_run_reports_after_first_store_witness :
  exists evs,
    Tracker.log (snd (Tracker.run 300 (Sample.boot (Sample.at_noon 10 0 0))
                        ([Sample.offline (Sample.at_noon 10 0 1);
                          Sample.misshapen (Sample.at_noon 10 0 2);
                          Sample.readonly (Sample.at_noon 10 5 3)]
                         ++ [Sample.good (Sample.at_noon 10 10 4)]) Sample.fresh))
    = ([Tracker.EvReport false; Tracker.EvFetch; Tracker.EvFetch; Tracker.EvSleep 300;
        Tracker.EvFetch; Tracker.EvStore false; Tracker.EvSleep 300]
       ++ [Tracker.EvFetch; Tracker.EvStore true; Tracker.EvReport true] ++ evs)%list.
Proof.
  epose proof (first_run_reports_after_first_store 300 (Sample.boot (Sample.at_noon 10 0 0))
                 [Sample.offline (Sample.at_noon 10 0 1);
                  Sample.misshapen (Sample.at_noon 10 0 2);
                  Sample.readonly (Sample.at_noon 10 5 3)]
                 Sample.fresh _ _ (Sample.good (Sample.at_noon 10 10 4)) _ _ _
                 eq_refl eq_refl eq_refl) as H0.
  edestruct H0 as (_ & _ & _ & H).
  - split; [reflexivity|split; [reflexivity|discriminate]].
  - reflexivity.
  - reflexivity.
  - reflexivity.
  - reflexivity.
  - exact H.
Defined.

(** X13. A [KeyboardInterrupt] ends the run and is not counted as an
    error: raised during the fetch it ends the run at once; raised during
    the sleep of an iteration whose fetch did not fail it ends the run with
    the work of that iteration done. What the script holds after such an
    iteration is never run. *)
Theorem interrupt_ends_run (update_interval : Z) (e : Tracker.cycle_env)
    (t : Tracker.tracker) :
  (Tracker.raised e Tracker.AtFetch = Some Tracker.KeyboardInterrupt ->
   forall rest,
     Tracker.loop update_interval (e :: rest) t
     = (Tracker.Interrupted, Tracker.logged [Tracker.EvFetch] t))
  /\ (Tracker.fault e = Some (Tracker.AtSleep, Tracker.KeyboardInterrupt) ->
      Tracker.fetch_failed e = false ->
      exists t',
        (forall rest, Tracker.loop update_interval (e :: rest) t = (Tracker.Interrupted, t'))
        /\ (Tracker.errors_count t' = Tracker.errors_count t
            \/ Tracker.errors_count t' = 0%Z)).
Proof.
  split.
  - intros H rest. simpl. rewrite (body_fetch_interrupted update_interval e t H). reflexivity.
  - intros Hf Hff.
    destruct (body_sleep_interrupted update_interval e t Hf Hff) as (t' & Hb & Hc).
    exists t'. split; [|exact Hc]. intros rest. simpl. rewrite Hb. reflexivity.
Qed.

Lemma interrupt_ends_run_witness :
  exists t',
    (forall rest,
        Tracker.loop 300
          (Tracker.mk_cycle_env (Sample.at_noon 10 0 1)
             (fun _ => Tracker.Json [Sample.bitcoin]) (Sample.at_noon 10 0 1) true
             (Sample.fine (Sample.at_noon 10 0 1))
             (Some (Tracker.AtSleep, Tracker.KeyboardInterrupt)) :: rest)
          (Tracker.mk_tracker None 2 Sample.fresh []) = (Tracker.Interrupted, t'))
    /\ (Tracker.errors_count t' = 2%Z \/ Tracker.errors_count t' = 0%Z).
Proof.
  apply (proj2 (interrupt_ends_run 300
                  (Tracker.mk_cycle_env (Sample.at_noon 10 0 1)
                     (fun _ => Tracker.Json [Sample.bitcoin]) (Sample.at_noon 10 0 1) true
                     (Sample.fine (Sample.at_noon 10 0 1))
                     (Some (Tracker.AtSleep, Tracker.KeyboardInterrupt)))
                  (Tracker.mk_tracker None 2 Sample.fresh []))).
  - reflexivity.
  - reflexivity.
Defined.

(** ** The fetch, the transform and the store *)

Section Data.

Import Frame Tracker.

Lemma upper_char_not_lower (c : ascii) : PyStr.is_lower (PyStr.upper_char c) = false.
Proof. destruct c as [[|] [|] [|] [|] [|] [|] [|] [|]]; vm_compute; reflexivity. Qed.

Lemma fillna0_notna (x : float) : PrimFloat.is_nan (fillna0 x) = false.
Proof.
  unfold fillna0. destruct (PrimFloat.is_nan x) eqn:E; [reflexivity|exact E].
Qed.


Lemma names_of_some (l : list (cell string)) (names : list string) :
  names_of l = Some names <-> l = map Val names.
Proof.
  revert names. induction l as [|[| |s] l IH]; intros names; simpl.
  - split; [intros [= <-]; reflexivity|destruct names; [reflexivity|discriminate]].
  - split; [discriminate|destruct names; discriminate].
  - split; [discriminate|destruct names; discriminate].
  - destruct (names_of l) as [t|].
    + split.
      * intros [= <-]. simpl. f_equal. apply IH. reflexivity.
      * destruct names as [|n names]; [discriminate|]. intros [= -> H].
        apply IH in H. injection H as ->. reflexivity.
    + split; [discriminate|].
      destruct names as [|n names]; [discriminate|]. intros [= -> H].
      apply IH in H. discriminate.
Qed.

Lemma lookup_map {A B} (f : A -> B) (l : list A) (i : nat) :
  map f l !! i = option_map f (l !! i).
Proof.
  revert i. induction l as [|x l IH]; intros [|i]; simpl; auto.
Qed.

Lemma upper_no_lower (l : list ascii) :
  existsb PyStr.is_lower (map PyStr.upper_char l) = false.
Proof.
  induction l as [|c l IH]; simpl; [reflexivity|].
  rewrite upper_char_not_lower. exact IH.
Qed.

End Data.

(** X15. [fetch_top_50_data] returns the payload of the first attempt that
    succeeds among the first three, all attempts before it having failed
    with a [RequestException]; in every other case it returns [None]. It
    makes no fourth attempt. *)
Theorem fetch_first_success (responses : nat -> Tracker.http) (data : Tracker.payload) :
  Tracker.fetch_top_50_data responses = Some data
  <-> exists i, (i < 3)%nat /\ responses i = Tracker.Json data
                /\ forall j, (j < i)%nat -> responses j = Tracker.RequestException.
Proof.
  unfold Tracker.fetch_top_50_data, Tracker.max_retries. simpl. split.
  - destruct (responses 0%nat) eqn:H0.
    + intros [= <-]. exists 0%nat. repeat split; [lia|assumption|intros j Hj; lia].
    + destruct (responses 1%nat) eqn:H1.
      * intros [= <-]. exists 1%nat. repeat split; [lia|assumption|].
        intros j Hj. assert (j = 0%nat) as -> by lia. assumption.
      * destruct (responses 2%nat) eqn:H2; try discriminate.
        intros [= <-]. exists 2%nat. repeat split; [lia|assumption|].
        intros j Hj. assert (j = 0 \/ j = 1)%nat as [-> | ->] by lia; assumption.
      * discriminate.
    + discriminate.
  - intros (i & Hi & Hok & Hbefore).
    assert (i = 0 \/ i = 1 \/ i = 2)%nat as [-> | [-> | ->]] by lia.
    + rewrite Hok. reflexivity.
    + rewrite (Hbefore 0%nat) by lia. rewrite Hok. reflexivity.
    + rewrite (Hbefore 0%nat) by lia. rewrite (Hbefore 1%nat) by lia. rewrite Hok.
      reflexivity.
Qed.


(** X17. A table [process_data] returns has one row for each record, in
    the records' order and with their names; its volume and 24h-change
    columns hold no missing value, a record without them giving 0; and its
    symbols hold no lower-case letter. *)
Theorem process_data_table (data : list Frame.coin) (df : list Frame.row) :
  Tracker.process_data data = Some df ->
  df <> []
  /\ length df = length data
  /\ map Frame.Name df = map Frame.name data
  /\ Forall (fun r => PrimFloat.is_nan (Frame.Volume_24h_USD r) = false
                      /\ PrimFloat.is_nan (Frame.Change_24h_pct r) = false) df
  /\ (forall i c r, data !! i = Some c -> df !! i = Some r ->
      (Frame.price_change_percentage_24h c = Frame.Absent
       \/ Frame.price_change_percentage_24h c = Frame.Null ->
       Frame.Change_24h_pct r = 0%float)
      /\ (Frame.total_volume c = Frame.Absent \/ Frame.total_volume c = Frame.Null ->
          Frame.Volume_24h_USD r = 0%float))
  /\ Forall (fun r => forall s, Frame.Symbol r = Frame.Val s ->
                      existsb PyStr.is_lower (PyStr.chars s) = false) df.
Proof.
  intros Hp. destruct (process_data_names data df Hp) as [Hne Hnames].
  split; [exact Hne|]. split.
  { rewrite <- (length_map Frame.Name df), Hnames, length_map. reflexivity. }
  split; [exact Hnames|].
  revert Hp. unfold Tracker.process_data.
  destruct data as [|c0 data0] eqn:Hd; [discriminate|]. rewrite <- Hd. clear Hd Hne Hnames.
  destruct (_ && _); [|discriminate]. intros [= <-].
  split; [|split].
  - apply List.Forall_forall. intros r Hin. apply in_map_iff in Hin as (c & <- & _). simpl.
    split; apply fillna0_notna.
  - intros i c r Hc Hr. rewrite lookup_map, Hc in Hr. injection Hr as <-. simpl.
    split; intros [-> | ->]; reflexivity.
  - apply List.Forall_forall. intros r Hin. apply in_map_iff in Hin as (c & <- & _). simpl.
    intros s Hs. destruct (Frame.symbol c) as [| |s0]; try discriminate.
    injection Hs as <-. unfold PyStr.upper. rewrite chars_of_chars.
    apply upper_no_lower.
Qed.

Lemma process_data_table_witness :
  exists df, Tracker.process_data [Sample.bitcoin; Sample.ethereum] = Some df
             /\ length df = 2%nat.
Proof.
  eexists. split; [reflexivity|].
  apply (process_data_table [Sample.bitcoin; Sample.ethereum]). reflexivity.
Defined.

(** ** The analysis, the workbook and the report built from it *)

Section Store.

Import Frame Tracker.

Lemma names_of_forall (l : list (cell string)) :
  (exists names, names_of l = Some names) <-> Forall (fun c => exists s, c = Val s) l.
Proof.
  induction l as [|c l IH]; simpl.
  - split; [constructor|eauto].
  - split.
    + intros [names H]. destruct c as [| |s]; try discriminate.
      destruct (names_of l) as [t|] eqn:E; [|discriminate].
      constructor; [eauto|]. apply IH. eauto.
    + intros H. apply List.Forall_cons_iff in H as [[s ->] H].
      apply IH in H as [t ->]. eauto.
Qed.

Lemma names_of_map (l : list (cell string)) (names : list string) :
  names_of l = Some names -> map cell_str l = names.
Proof.
  revert names. induction l as [|[| |s] l IH]; intros names; simpl; try discriminate.
  - intros [= <-]. reflexivity.
  - destruct (names_of l) as [t|]; [|discriminate].
    intros [= <-]. f_equal. apply IH. reflexivity.
Qed.

Lemma update_excel_true (ok : bool) (df : dataframe) (a : analysis) (d d1 : files) :
  update_excel ok df a d = (true, d1) ->
  exists names sheet,
    names_of (top_5_by_market_cap a) = Some names
    /\ d1 = mk_files (Some (mk_workbook df sheet)) (latest_report d) (archive_dir d)
    /\ map fst sheet = ["Last Updated"; "Top 5 by Market Cap"; "Average Price (USD)";
                        "Highest 24h Change"; "Lowest 24h Change"].
Proof.
  unfold update_excel.
  destruct (names_of (top_5_by_market_cap a)) as [names|]; [|destruct ok; discriminate].
  destruct ok; [|discriminate]. intros [= <-]. eexists. eexists.
  split; [reflexivity|]. split; reflexivity.
Qed.

End Store.

(** X18. [analyze_data] fails exactly on an empty table; on a table that
    [process_data] returned it never fails. *)
Theorem analyze_data_fails_iff_empty (now : PyTime.datetime) (df : Frame.dataframe) :
  (Tracker.analyze_data now df = None <-> df = [])
  /\ (forall data, Tracker.process_data data = Some df ->
      exists a, Tracker.analyze_data now df = Some a).
Proof.
  split.
  - split.
    + intros H. destruct df as [|r df]; [reflexivity|exfalso].
      revert H. unfold Tracker.analyze_data.
      destruct (nlargest1_some Frame.Change_24h_pct (r :: df)) as [hi ->]; [discriminate|].
      destruct (nsmallest1_some Frame.Change_24h_pct (r :: df)) as [lo ->]; [discriminate|].
      discriminate.
    + intros ->. reflexivity.
  - intros data. apply analyze_data_after_process.
Qed.

(** X19. [update_excel] succeeds exactly when the workbook can be written
    and none of the top-5 names is missing; then the workbook holds the
    table it was given and the five rows of the analysis. In no case does
    it touch the latest report or the archive. *)
Theorem update_excel_result (excel_ok : bool) (df : Frame.dataframe)
    (a : Tracker.analysis) (d : Frame.files) :
  (fst (Tracker.update_excel excel_ok df a d) = true
   <-> excel_ok = true
       /\ Forall (fun c => exists s, c = Frame.Val s) (Tracker.top_5_by_market_cap a))
  /\ Frame.latest_report (snd (Tracker.update_excel excel_ok df a d)) = Frame.latest_report d
  /\ Frame.archive_dir (snd (Tracker.update_excel excel_ok df a d)) = Frame.archive_dir d
  /\ (fst (Tracker.update_excel excel_ok df a d) = true ->
      exists sheet,
        Frame.excel_file (snd (Tracker.update_excel excel_ok df a d))
        = Some (Frame.mk_workbook df sheet)
        /\ map fst sheet = ["Last Updated"; "Top 5 by Market Cap"; "Average Price (USD)";
                            "Highest 24h Change"; "Lowest 24h Change"]).
Proof.
  pose proof (names_of_forall (Tracker.top_5_by_market_cap a)) as Hn.
  unfold Tracker.update_excel.
  destruct (Tracker.names_of (Tracker.top_5_by_market_cap a)) as [names|].
  - destruct excel_ok; simpl.
    + split; [split; [intros _; split; [reflexivity|apply Hn; eauto]|reflexivity]|].
      split; [reflexivity|]. split; [reflexivity|]. intros _. eexists.
      split; reflexivity.
    + split; [split; [discriminate|intros [H _]; discriminate]|].
      split; [reflexivity|]. split; [reflexivity|]. discriminate.
  - destruct excel_ok; simpl; split.
    + split; [discriminate|]. intros [_ H]. apply Hn in H as [names H]. discriminate.
    + split; [reflexivity|]. split; [reflexivity|]. discriminate.
    + split; [discriminate|]. intros [H _]. discriminate.
    + split; [reflexivity|]. split; [reflexivity|]. discriminate.
Qed.

Lemma update_excel_result_witness :
  fst (Tracker.update_excel true
         [Frame.mk_row Frame.Null (Frame.Val "BTC") 50000 1e12 3e10 1.5]
         (Tracker.mk_analysis "2024-03-10 12:00:00" [Frame.Null] 50000
            Frame.Null Frame.Null 1.5 1.5)
         Sample.fresh) = false.
Proof.
  apply not_true_is_false. intros H.
  apply (proj1 (proj1 (update_excel_result true
                         [Frame.mk_row Frame.Null (Frame.Val "BTC") 50000 1e12 3e10 1.5]
                         (Tracker.mk_analysis "2024-03-10 12:00:00" [Frame.Null] 50000
                            Frame.Null Frame.Null 1.5 1.5)
                         Sample.fresh))) in H.
  destruct H as [_ H]. inversion H as [|c l [s Hs] Hl]. discriminate Hs.
Defined.

(** X20. The report generated after a store lists what was analysed,
    provided the workbook reads back as it was stored (which [read_excel]
    does not do for a name it takes for a missing value, such as [NA]):
    when moreover the directories and the latest slot are usable, the
    latest report afterwards carries the stamp of its clock and its top-5
    table lists the names of the analysis's top-5, in their order, whether
    or not the archive copy could be written. *)
Theorem report_lists_the_analysed_top5 (now : PyTime.datetime) (excel_ok : bool)
    (df : Frame.dataframe) (a : Tracker.analysis) (d d1 : Frame.files) (e : Report.env)
    (wb : Frame.workbook) :
  Tracker.analyze_data now df = Some a ->
  Tracker.update_excel excel_ok df a d = (true, d1) ->
  Frame.excel_file d1 = Some wb ->
  Report.read_excel e wb = Some wb ->
  Report.dirs_ok e = true -> Report.latest_ok e = true ->
  exists p names,
    Frame.latest_report (snd (Report.generate_report e d1)) = Some p
    /\ Frame.generated p = "Report Generated: " ++ PyTime.strftime_iso (Report.latest_now e)
    /\ Tracker.names_of (Tracker.top_5_by_market_cap a) = Some names
    /\ map (hd "") (tl (Frame.top_5_data p)) = names.
Proof.
  intros Han Hu Hwb Hr Hd Hl.
  destruct (update_excel_true _ _ _ _ _ Hu) as (names & sheet & Hn & -> & _).
  cbn [Frame.excel_file] in Hwb. injection Hwb as <-.
  assert (Htop : Tracker.top_5_by_market_cap a = map Frame.Name (take 5 df)).
  { revert Han. unfold Tracker.analyze_data.
    destruct (Frame.nlargest1 _ df); [|discriminate].
    destruct (Frame.nsmallest1 _ df); [|discriminate].
    intros [= <-]. reflexivity. }
  exists (Report.create_pdf_report (Report.latest_now e) df), names.
  unfold Report.generate_report, Report.load_data.
  cbn [Frame.excel_file]. rewrite Hd, Hr, Hl. cbn [negb Frame.live_data].
  split; [destruct (Report.archive_ok e); reflexivity|].
  split; [reflexivity|]. split; [exact Hn|].
  rewrite <- (names_of_map _ _ Hn), Htop. simpl. rewrite !map_map. reflexivity.
Qed.

Lemma report_lists_the_analysed_top5_witness :
  exists p names,
    Frame.latest_report
      (snd (Report.generate_report (Sample.archive_full (Sample.at_noon 10 0 2))
              (snd (Tracker.update_excel true Sample.seven_table Sample.seven_analysis
                      Sample.fresh)))) = Some p
    /\ Frame.generated p = "Report Generated: 2024-03-10 12:00:02"
    /\ Tracker.names_of (Tracker.top_5_by_market_cap Sample.seven_analysis) = Some names
    /\ map (hd "") (tl (Frame.top_5_data p))
       = ["Bitcoin"; "Ethereum"; "Tether"; "BNB"; "Solana"]
    /\ names = ["Bitcoin"; "Ethereum"; "Tether"; "BNB"; "Solana"].
Proof.
  destruct (report_lists_the_analysed_top5 (Sample.at_noon 10 0 1) true Sample.seven_table
              Sample.seven_analysis Sample.fresh _
              (Sample.archive_full (Sample.at_noon 10 0 2)) _
              eq_refl eq_refl eq_refl eq_refl eq_refl eq_refl)
    as (p & names & H1 & H2 & H3 & H4).
  exists p, names. split; [exact H1|]. split; [exact H2|]. split; [exact H3|].
  injection H3 as <-. split; [exact H4|reflexivity].
Defined.

(** X21. The tables of a report: the market overview has three rows of
    two cells, and the top-5 table a header and one row for each of the
    first five rows of the table, at most five, every row of four cells. *)
Theorem create_pdf_report_tables (now : PyTime.datetime) (df : Frame.dataframe) :
  map (@length string) (Frame.market_data (Report.create_pdf_report now df)) = [2; 2; 2]%nat
  /\ length (Frame.top_5_data (Report.create_pdf_report now df))
     = S (Nat.min 5 (length df))
  /\ (length (Frame.top_5_data (Report.create_pdf_report now df)) <= 6)%nat
  /\ Forall (fun cells => length cells = 4%nat)
            (Frame.top_5_data (Report.create_pdf_report now df)).
Proof.
  simpl. split; [reflexivity|]. rewrite length_map, length_take.
  split; [reflexivity|]. split; [lia|].
  constructor; [reflexivity|].
  apply List.Forall_forall. intros cells Hin. apply in_map_iff in Hin as (r & <- & _).
  reflexivity.
Qed.

(** ** The digits of an amount *)

Section Digits.

Local Open Scope Z_scope.

Lemma digit_not_comma (c : ascii) :
  PyStr.is_digit c = true -> negb (Ascii.eqb c ","%char) = true.
Proof.
  intros H. destruct (Ascii.eqb c ","%char) eqn:E; [|reflexivity].
  apply Ascii.eqb_eq in E. subst c. discriminate H.
Qed.

Lemma digits_strip (l : list ascii) :
  forallb PyStr.is_digit l = true ->
  List.filter (fun c => negb (Ascii.eqb c ","%char)) l = l.
Proof.
  induction l as [|c l IH]; simpl; [reflexivity|].
  intros H. apply andb_prop in H as [Hc Hl].
  rewrite (digit_not_comma c Hc), (IH Hl). reflexivity.
Qed.

Lemma all_digits_strip (s : string) :
  PyStr.all_digits s = true -> PyStr.strip_commas s = s.
Proof.
  unfold PyStr.all_digits, PyStr.strip_commas. destruct s as [|c s]; [discriminate|].
  intros H. rewrite (digits_strip _ H). apply of_chars_chars.
Qed.

Lemma two_digits_strip (s : string) :
  PyStr.two_digits s = true -> PyStr.strip_commas s = s.
Proof.
  destruct s as [|a [|b [|c s]]]; try discriminate. simpl. intros H.
  apply andb_prop in H as [Ha Hb]. unfold PyStr.strip_commas. simpl.
  rewrite (digit_not_comma a Ha), (digit_not_comma b Hb). reflexivity.
Qed.

Lemma strip_commas_app (a b : string) :
  PyStr.strip_commas (a ++ b) = PyStr.strip_commas a ++ PyStr.strip_commas b.
Proof.
  unfold PyStr.strip_commas. rewrite chars_app, List.filter_app, of_chars_app. reflexivity.
Qed.

End Digits.

(** X22. Thousands separators add commas and nothing else: an amount
    written with them reads, once the commas are taken out, as the same
    amount written without them. *)
Theorem format_comma_2f_strip (x : float) :
  PyStr.strip_commas (PyFloat.format_comma_2f x) = PyFloat.format_2f x.
Proof.
  unfold PyFloat.format_comma_2f, PyFloat.format_2f.
  destruct (Prim2SF x) as [s|s| |s m e].
  - destruct s; reflexivity.
  - destruct s; reflexivity.
  - reflexivity.
  - rewrite !strip_commas_app.
    rewrite (group3_strip (PyFloat.int_part (PyFloat.hundredths m e)))
      by (apply all_digits_strip, str_nat_all_digits).
    rewrite (two_digits_strip (PyFloat.frac_part (PyFloat.hundredths m e)))
      by apply frac_part_two_digits.
    destruct s; reflexivity.
Qed.

(** X23. A finite amount that is not zero is written as an optional minus
    sign, one digit or more, a point and exactly two digits. *)
Theorem format_2f_digits (x : float) (s : bool) (m : positive) (e : Z) :
  Prim2SF x = S754_finite s m e ->
  exists ip fp,
    PyFloat.format_2f x = (if s then "-" else "") ++ ip ++ "." ++ fp
    /\ PyStr.all_digits ip = true
    /\ PyStr.two_digits fp = true.
Proof.
  intros H. unfold PyFloat.format_2f. rewrite H.
  exists (PyFloat.int_part (PyFloat.hundredths m e)),
         (PyFloat.frac_part (PyFloat.hundredths m e)).
  split; [reflexivity|]. split; [apply str_nat_all_digits|apply frac_part_two_digits].
Qed.

Lemma format_2f_digits_witness :
  exists ip fp,
    PyFloat.format_2f (-1234.5)%float = "-" ++ ip ++ "." ++ fp
    /\ PyStr.all_digits ip = true
    /\ PyStr.two_digits fp = true.
Proof.
  apply (format_2f_digits (-1234.5)%float true 5429388417957888 (-42)). reflexivity.
Defined.

(** ** How often the loop fetches and reports *)

Section Counts.

Import Frame Tracker.

Local Open Scope Z_scope.

Variable update_interval : Z.

Lemma fetches_app (l1 l2 : list event) :
  fetches (l1 ++ l2) = (fetches l1 + fetches l2)%nat.
Proof. unfold fetches. rewrite List.filter_app, length_app. reflexivity. Qed.

(** One iteration: one fetch more, and one report more at most. *)
Lemma body_counts (e : cycle_env) (t : tracker) :
  fetches (log (snd (body update_interval e t))) = S (fetches (log t))
  /\ (reports (log (snd (body update_interval e t))) <= S (reports (log t)))%nat.
Proof.
  destruct (body_events update_interval e t) as (evs & -> & Hshape).
  rewrite fetches_app, reports_app.
  destruct Hshape as [->|[->|[->|[->|[[ok [->| ->]]|[->| ->]]]]]];
    unfold fetches, reports; simpl; lia.
Qed.

Lemma loop_counts (es : list cycle_env) (t : tracker) :
  (fetches (log (snd (loop update_interval es t))) <= fetches (log t) + length es)%nat
  /\ (reports (log (snd (loop update_interval es t))) <= reports (log t) + length es)%nat
  /\ (fst (loop update_interval es t) = Running ->
      fetches (log (snd (loop update_interval es t))) = (fetches (log t) + length es)%nat).
Proof.
  revert t. induction es as [|e es IH]; intros t; simpl.
  - repeat split; lia.
  - destruct (body_counts e t) as [Hf Hr].
    destruct (body update_interval e t) as [[[]|[| |[|]]] t1]; simpl in *.
    + destruct (IH t1) as (H1 & H2 & H3). repeat split; try lia. intros H. rewrite (H3 H). lia.
    + destruct (IH t1) as (H1 & H2 & H3). repeat split; try lia. intros H. rewrite (H3 H). lia.
    + repeat split; try lia. discriminate.
    + destruct (IH (mk_tracker (last_report_time t1) (errors_count t1 + 1) (disk t1) (log t1)))
        as (H1 & H2 & H3). simpl in *.
      repeat split; try lia. intros H. rewrite (H3 H). lia.
    + repeat split; try lia. discriminate.
Qed.

End Counts.

(** X24. Reports are rate limited: when an iteration replaces a recorded
    last report time, the new one, the time read at the start of the
    iteration, is at least five minutes after the old one. *)
Theorem reports_are_rate_limited (update_interval : Z) (e : Tracker.cycle_env)
    (t : Tracker.tracker) (l l' : PyTime.datetime) :
  Tracker.last_report_time t = Some l ->
  Tracker.last_report_time (snd (Tracker.body update_interval e t)) = Some l' ->
  l' = l
  \/ (l' = Tracker.now e /\ (PyTime.minutes 5 <= PyTime.sub l' l)%Z).
Proof.
  intros Hl Hl'.
  destruct (body_last_report_time update_interval e t) as [H|[H Hd]].
  - left. congruence.
  - right. assert (l' = Tracker.now e) as -> by congruence.
    split; [reflexivity|]. rewrite Hl in Hd. simpl in Hd. apply Z.leb_le in Hd. exact Hd.
Qed.

Lemma reports_are_rate_limited_witness :
  Sample.at_noon 10 6 0 = Sample.at_noon 10 0 0
  \/ (Sample.at_noon 10 6 0 = Tracker.now (Sample.good (Sample.at_noon 10 6 0))
      /\ (PyTime.minutes 5 <= PyTime.sub (Sample.at_noon 10 6 0) (Sample.at_noon 10 0 0))%Z).
Proof.
  apply (reports_are_rate_limited 300 (Sample.good (Sample.at_noon 10 6 0))
           (Tracker.mk_tracker (Some (Sample.at_noon 10 0 0)) 0 Sample.stocked [])).
  - reflexivity.
  - reflexivity.
Defined.

(** X25. A run makes no more fetches than the script has iterations, and
    exactly as many while it is still running; it generates no more
    reports than iterations, the bootstrap report apart. *)
Theorem run_log_counts (update_interval : Z) (b : Tracker.boot_env)
    (es : list Tracker.cycle_env) (d : Frame.files) :
  (Tracker.fetches (Tracker.log (snd (Tracker.run update_interval b es d))) <= length es)%nat
  /\ (Tracker.reports (Tracker.log (snd (Tracker.run update_interval b es d)))
      <= S (length es))%nat
  /\ (fst (Tracker.run update_interval b es d) = Tracker.Running ->
      Tracker.fetches (Tracker.log (snd (Tracker.run update_interval b es d))) = length es).
Proof.
  unfold Tracker.run. destruct (Tracker.startup b d) as [t0|] eqn:Hs.
  - assert (H0 : Tracker.fetches (Tracker.log t0) = 0%nat
                 /\ Tracker.reports (Tracker.log t0) = 1%nat).
    { unfold Tracker.startup in Hs. destruct (Tracker.boot_dirs_ok b); [|discriminate].
      destruct (Report.generate_report _ _) as [ok d']. injection Hs as <-.
      split; reflexivity. }
    destruct H0 as [Hf Hr].
    destruct (loop_counts update_interval es t0) as (H1 & H2 & H3).
    rewrite Hf in *. rewrite Hr in *. simpl in *. repeat split; try lia. exact H3.
  - unfold Tracker.fetches, Tracker.reports. simpl.
    split; [lia|]. split; [lia|]. intros H. discriminate H.
Qed.
